(** * Segment API client (tubular/segment_api.py): model and properties

    A shallow embedding of the Segment bulk user-deletion client.  The
    client is effectful Python: it talks to an HTTP server, writes to a
    logger and raises exceptions.  The embedding threads an explicit
    [world] (the requests sent so far and the log records written so far)
    through a small exception-and-state monad, and takes the server as a
    function of the request history. *)

From Stdlib Require Import ZArith Ascii String DecimalString Lia.
From stdpp Require Import base list strings gmap.

Set Warnings "-register-all".

Open Scope string_scope.
Open Scope list_scope.
Open Scope Z_scope.

(** ** Python values *)

(** The Python objects the client handles: learner field values and the
    objects that [resp.json()] builds.  A dict decoded from JSON keeps its
    keys in document order, which [str] shows, so it is an association
    list (with distinct keys, as in Python).  Floats are left out. *)
Inductive pyobj : Type :=
| PyNone
| PyBool (b : bool)
| PyInt (z : Z)
| PyStr (s : string)
| PyList (xs : list pyobj)
| PyDict (kvs : list (string * pyobj)).

(** [str(n)] for an int. *)
Definition str_int (z : Z) : string := NilZero.string_of_int (Z.to_int z).

Definition hex_digit (n : N) : ascii :=
  match n with
  | 0 => "0" | 1 => "1" | 2 => "2" | 3 => "3" | 4 => "4" | 5 => "5" | 6 => "6"
  | 7 => "7" | 8 => "8" | 9 => "9" | 10 => "a" | 11 => "b" | 12 => "c"
  | 13 => "d" | 14 => "e" | _ => "f"
  end%N%char.

Definition string_mem (c : ascii) (s : string) : bool :=
  existsb (Ascii.eqb c) (list_ascii_of_string s).

(** [repr(s)] for a str, on ASCII text: single quotes unless the text has a
    single quote and no double quote; the quote and the backslash are
    escaped, as are tab, newline, carriage return and the other control
    characters.  Bytes above 127 stand for printable text and pass. *)
Definition dquote : ascii := ascii_of_nat 34.

Definition repr_char (quote c : ascii) : string :=
  let n := N_of_ascii c in
  if Ascii.eqb c quote then String "\" (String c "")
  else if Ascii.eqb c "\" then "\\"
  else if (n =? 9)%N then "\t"
  else if (n =? 10)%N then "\n"
  else if (n =? 13)%N then "\r"
  else if ((n <? 32) || (n =? 127))%N
       then String "\" (String "x" (String (hex_digit (n / 16)) (String (hex_digit (n mod 16)) "")))
  else String c "".

Definition repr_str (s : string) : string :=
  let quote : ascii :=
    if string_mem "'" s && negb (string_mem dquote s) then dquote else "'"%char in
  String quote (String.concat "" (repr_char quote <$> list_ascii_of_string s))
    +:+ String quote "".

(** [repr(o)]: what [str] shows for the members of a list or a dict. *)
Fixpoint repr (o : pyobj) : string :=
  match o with
  | PyNone => "None"
  | PyBool true => "True"
  | PyBool false => "False"
  | PyInt z => str_int z
  | PyStr s => repr_str s
  | PyList xs => "[" +:+ String.concat ", " (map repr xs) +:+ "]"
  | PyDict kvs =>
      "{" +:+ String.concat ", " (map (fun kv => repr_str (fst kv) +:+ ": " +:+ repr (snd kv)) kvs)
          +:+ "}"
  end.

(** [six.text_type(o)], which is [str(o)] on Python 3: a str is itself,
    anything else is its [repr]. *)
Definition text_type (o : pyobj) : string :=
  match o with
  | PyStr s => s
  | _ => repr o
  end.

(** The value under [k] in a dict's items, if any (the first, the keys
    being distinct). *)
Fixpoint assoc_get (kvs : list (string * pyobj)) (k : string) : option pyobj :=
  match kvs with
  | [] => None
  | (k', v) :: rest => if String.eqb k' k then Some v else assoc_get rest k
  end.

(** ** Python lists and ranges *)

(** [xs[i]] with Python's negative indices; [None] is [IndexError]. *)
Definition getitem {A : Type} (xs : list A) (i : Z) : option A :=
  let n := Z.of_nat (length xs) in
  if (0 <=? i) && (i <? n) then xs !! Z.to_nat i
  else if (- n <=? i) && (i <? 0) then xs !! Z.to_nat (n + i)
  else None.

(** [range(a, b)]. *)
Definition py_range (a b : Z) : list Z :=
  (fun k => a + Z.of_nat k) <$> seq 0 (Z.to_nat (b - a)).

(** ** HTTP *)

Inductive http_method : Type := GET | POST.

(** What [requests.get] and [requests.post] are called with. *)
Record request : Type := mk_request {
  req_method : http_method;
  req_url : string;
  req_headers : list (string * string);
  req_json : option pyobj
}.

(** A response object: its status, its text, and what its [json()] method
    yields ([None] when it raises [JSONDecodeError]). *)
Record response : Type := mk_response {
  status_code : Z;
  text : string;
  json : option pyobj
}.

(** What one call of [requests.get] or [requests.post] comes back with. *)
Inductive reply : Type :=
| Reply (r : response)
| TimedOut
| ConnectionFailed.

(** The exceptions that occur. *)
Inductive exn : Type :=
| KeyError (k : string)
| IndexError
| TypeError
| HTTPError (r : response)
| JSONDecodeError
| Timeout
| ConnectionError
| Exception (msg : string).

(** ** The log *)

Inductive level : Type := INFO | ERROR.

(** One constructor per logging call of the module, with the values it is
    given.  The wait of a retry is a random float and is not kept. *)
Inductive log_event : Type :=
| AttemptingDeletion (start_idx end_idx : Z) (id0 name0 id1 name1 : pyobj)
| TooManyValues (n : nat)
| DeletionQueued (msg : string)
| ExceptionLogged (e : exn)
| ErrorLogged (err : string)
| StatusLogged (msg : string)
| TryingAgain (tries : nat)
| TracebackLogged (e : exn)
| HTTPErrorLogged (code : Z) (body : string).

Definition level_of (ev : log_event) : level :=
  match ev with
  | AttemptingDeletion _ _ _ _ _ _ | DeletionQueued _ | StatusLogged _ => INFO
  | _ => ERROR
  end.

(** ** The world, and the monad of the client *)

Record world : Type := mk_world {
  http_log : list request;
  log : list log_event
}.

Inductive outcome (A : Type) : Type :=
| Returned (a : A)
| Raised (e : exn).
Arguments Returned {A} a.
Arguments Raised {A} e.

Definition M (A : Type) : Type := world -> outcome A * world.

Definition ret {A : Type} (a : A) : M A := fun w => (Returned a, w).

Definition raise {A : Type} (e : exn) : M A := fun w => (Raised e, w).

Definition bind {A B : Type} (m : M A) (k : A -> M B) : M B :=
  fun w =>
    match m w with
    | (Returned a, w') => k a w'
    | (Raised e, w') => (Raised e, w')
    end.

(** [try: m except <caught> as e: handler e]. *)
Definition try_except {A : Type} (m : M A) (caught : exn -> bool) (handler : exn -> M A) : M A :=
  fun w =>
    match m w with
    | (Raised e, w') => if caught e then handler e w' else (Raised e, w')
    | r => r
    end.

Definition LOG (ev : log_event) : M unit :=
  fun w => (Returned tt, mk_world (http_log w) (log w ++ [ev])).

(** A computation that can raise but touches no state. *)
Definition lift {A : Type} (o : outcome A) : M A := fun w => (o, w).

Definition obind {A B : Type} (o : outcome A) (k : A -> outcome B) : outcome B :=
  match o with
  | Returned a => k a
  | Raised e => Raised e
  end.

Definition or_raise {A : Type} (e : exn) (o : option A) : outcome A :=
  match o with
  | Some a => Returned a
  | None => Raised e
  end.

Declare Scope py_scope.
Delimit Scope py_scope with py.
Notation "x <- m ;; k" := (bind m (fun x => k))
  (at level 100, m at next level, right associativity) : py_scope.
Notation "m ;;; k" := (bind m (fun _ => k))
  (at level 100, right associativity) : py_scope.
Notation "x <~ o ;; k" := (obind o (fun x => k))
  (at level 100, o at next level, right associativity) : py_scope.

(** ** The module's constants *)

Definition MAX_TRIES : nat := 4.

Definition REQUIRED_IDENTIFYING_KEYS : list string := ["id"; "original_username"].
Definition OPTIONAL_IDENTIFYING_KEYS : list string := ["ecommerce_segment_id"].

(** ['v1beta/workspaces/{}/regulations'.format(slug)] *)
Definition BULK_DELETE_URL (slug : string) : string :=
  "v1beta/workspaces/" +:+ slug +:+ "/regulations".

(** ['v1beta/workspaces/{}/regulations/{}'.format(slug, id)] *)
Definition BULK_DELETE_STATUS_URL (slug : string) (id : pyobj) : string :=
  "v1beta/workspaces/" +:+ slug +:+ "/regulations/" +:+ text_type id.

Definition MAXIMUM_USERS_IN_DELETE_REQUEST : nat := 5000.

(** ** Retrying (the backoff library, as this module uses it) *)

(** [_backoff_handler]: one record for the retry, one for the traceback,
    and one with status and text when the exception carries a response
    (for any other exception the attribute access fails and is passed). *)
Definition _backoff_handler (tries : nat) (e : exn) : M unit :=
  (LOG (TryingAgain tries) ;;;
   LOG (TracebackLogged e) ;;;
   match e with
   | HTTPError r => LOG (HTTPErrorLogged (status_code r) (text r))
   | _ => ret tt
   end)%py.

(** [_http_status_giveup]: called on HTTPError instances only. *)
Definition _http_status_giveup (e : exn) : bool :=
  match e with
  | HTTPError r =>
      negb (429 =? status_code r) && negb ((500 <=? status_code r) && (status_code r <? 600))
  | _ => false
  end.

(** The loop of [backoff.on_exception]: call the target; an exception of
    the watched class is raised again when [giveup] holds of it or when
    this was try number [max_tries], and otherwise the handler runs, the
    thread sleeps and the target is called again.  [more] counts the tries
    still allowed after this one, [tries] those made, this one included. *)
Fixpoint retry_loop {A : Type} (watched giveup : exn -> bool) (target : M A)
    (more tries : nat) : M A :=
  try_except target watched (fun e =>
    match more with
    | O => raise e
    | S more' =>
        if giveup e then raise e
        else (_backoff_handler tries e ;;; retry_loop watched giveup target more' (S tries))%py
    end).

Definition on_exception {A : Type} (watched : exn -> bool) (max_tries : nat)
    (giveup : exn -> bool) (target : M A) : M A :=
  retry_loop watched giveup target (max_tries - 1) 1.

Definition is_JSONDecodeError (e : exn) : bool :=
  match e with JSONDecodeError => true | _ => false end.
Definition is_HTTPError (e : exn) : bool :=
  match e with HTTPError _ => true | _ => false end.
Definition is_Timeout (e : exn) : bool :=
  match e with Timeout => true | _ => false end.
Definition never (e : exn) : bool := false.

(** [_retry_segment_api]: three layers, the timeout one innermost. *)
Definition _retry_segment_api {A : Type} (func : M A) : M A :=
  let func_with_decode_backoff := on_exception (A:=A) is_JSONDecodeError MAX_TRIES never in
  let func_with_backoff := on_exception (A:=A) is_HTTPError MAX_TRIES _http_status_giveup in
  let func_with_timeout_backoff := on_exception (A:=A) is_Timeout MAX_TRIES never in
  func_with_decode_backoff (func_with_backoff (func_with_timeout_backoff func)).

(** ** The client *)

Record SegmentApi : Type := mk_SegmentApi {
  base_url : string;
  auth_token : string;
  workspace_slug : string
}.

(** Control leaving one pass of the window loop. *)
Inductive flow : Type :=
| Continue
| Return (v : pyobj).

(** How far a run of the window loop got within its fuel. *)
Inductive run (A : Type) : Type :=
| Finished (o : outcome A)
| StillRunning.
Arguments Finished {A} o.
Arguments StillRunning {A}.

(** [learners[idx][key]] *)
Definition learner_field (learners : list (gmap string pyobj)) (idx : Z) (key : string)
    : outcome pyobj :=
  (learner <~ or_raise IndexError (getitem learners idx) ;;
   or_raise (KeyError key) (learner !! key))%py.

(** [for x in xs: acc = body x acc] *)
Fixpoint for_each {A S : Type} (xs : list A) (body : A -> S -> outcome S) (acc : S) : outcome S :=
  match xs with
  | [] => Returned acc
  | x :: rest => (acc' <~ body x acc ;; for_each rest body acc')%py
  end.

(** What one learner adds to [learner_vals], lines 160-164. *)
Definition flatten_learner (learners : list (gmap string pyobj)) (idx : Z)
    (learner_vals : list string) : outcome (list string) :=
  (learner_vals <~ for_each REQUIRED_IDENTIFYING_KEYS (fun id_key learner_vals =>
      v <~ learner_field learners idx id_key ;;
      Returned (learner_vals ++ [text_type v])) learner_vals ;;
   for_each OPTIONAL_IDENTIFYING_KEYS (fun id_key learner_vals =>
      learner <~ or_raise IndexError (getitem learners idx) ;;
      if bool_decide (is_Some (learner !! id_key)) then
        v <~ learner_field learners idx id_key ;;
        Returned (learner_vals ++ [text_type v])
      else Returned learner_vals) learner_vals)%py.

(** The flattening of one window, lines 158-164. *)
Definition flatten_window (learners : list (gmap string pyobj)) (start_idx end_idx : Z)
    : outcome (list string) :=
  for_each (py_range start_idx (end_idx + 1)) (flatten_learner learners) [].

(** The body of the bulk-delete request. *)
Definition bulk_delete_params (learner_vals : list string) : pyobj :=
  PyDict [("regulation_type", PyStr "Suppress_With_Delete");
          ("attributes", PyDict [("name", PyStr "userId");
                                 ("values", PyList (PyStr <$> learner_vals))])].

(** [o[key]] for a str key on a decoded object. *)
Definition subscript (o : pyobj) (key : string) : outcome pyobj :=
  match o with
  | PyDict kvs => or_raise (KeyError key) (assoc_get kvs key)
  | _ => Raised TypeError
  end.

Definition post_request (self : SegmentApi) (url : string) (params : pyobj) : request :=
  mk_request POST (base_url self +:+ url)
    [("Authorization", "Bearer " +:+ auth_token self); ("Content-Type", "application/json")]
    (Some params).

Definition get_request (self : SegmentApi) (url : string) : request :=
  mk_request GET (base_url self +:+ url)
    [("Authorization", "Bearer " +:+ auth_token self)]
    None.

(** The message of the wrapped exception, lines 198-201. *)
Definition error_message (start_idx end_idx : Z) (resp_json : pyobj) : string :=
  "Error was encountered for learners between start/end indices ("
    +:+ str_int start_idx +:+ ", " +:+ str_int end_idx +:+ ") : " +:+ text_type resp_json.

Definition caught_by_delete_learners (e : exn) : bool :=
  match e with
  | TypeError | KeyError _ | HTTPError _ | JSONDecodeError => true
  | _ => false
  end.

Section Client.

(** The server: its reply to a request, given the requests made before. *)
Variable server : list request -> request -> reply.

(** [requests.get(...)] or [requests.post(...)]: one request on the wire. *)
Definition requests_send (req : request) : M response :=
  fun w =>
    let w' := mk_world (http_log w ++ [req]) (log w) in
    match server (http_log w) req with
    | Reply r => (Returned r, w')
    | TimedOut => (Raised Timeout, w')
    | ConnectionFailed => (Raised ConnectionError, w')
    end.

Definition raise_for_status (resp : response) : M unit :=
  if (400 <=? status_code resp) && (status_code resp <? 600)
  then raise (HTTPError resp) else ret tt.

(** The body shared by [_call_segment_post] and [_call_segment_get]. *)
Definition send_checked (req : request) : M response :=
  (resp <- requests_send req ;;
   raise_for_status resp ;;;
   ret resp)%py.

Definition _call_segment_post (self : SegmentApi) (url : string) (params : pyobj) : M response :=
  _retry_segment_api (send_checked (post_request self url params)).

Definition _call_segment_get (self : SegmentApi) (url : string) : M response :=
  _retry_segment_api (send_checked (get_request self url)).

(** The outer [try] block of [delete_learners], lines 183-191, together
    with the value the local [resp_json] has when the block is left. *)
Definition submit_window (self : SegmentApi) (params : pyobj) : world -> (outcome unit * pyobj) * world :=
  fun w =>
    let resp_json := PyStr "" in
    match _call_segment_post self (BULK_DELETE_URL (workspace_slug self)) params w with
    | (Raised e, w1) => ((Raised e, resp_json), w1)
    | (Returned resp, w1) =>
        match json resp with
        | None => ((Raised JSONDecodeError, PyStr (text resp)), w1)
        | Some resp_json =>
            match subscript resp_json "regulate_id" with
            | Raised e => ((Raised e, resp_json), w1)
            | Returned bulk_user_delete_id =>
                let '(_, w2) :=
                  LOG (DeletionQueued ("Bulk user deletion queued. Id: "
                                         +:+ text_type bulk_user_delete_id)) w1 in
                ((Returned tt, resp_json), w2)
            end
        end
    end.

(** The end of one pass, lines 166-204: the ceiling check, then the
    submission and the handling of its failure. *)
Definition check_and_submit (self : SegmentApi) (start_idx end_idx : Z)
    (learner_vals : list string) : M flow :=
  (if (MAXIMUM_USERS_IN_DELETE_REQUEST <=? length learner_vals)%nat then
     LOG (TooManyValues (length learner_vals)) ;;;
     ret (Return PyNone)
   else
     let params := bulk_delete_params learner_vals in
     fun w =>
       match submit_window self params w with
       | ((Returned _, _), w1) => (Returned Continue, w1)
       | ((Raised exc, resp_json), w1) =>
           if caught_by_delete_learners exc then
             let err := error_message start_idx end_idx resp_json in
             (LOG (ExceptionLogged exc) ;;;
              LOG (ErrorLogged err) ;;;
              raise (Exception err)) w1
           else (Raised exc, w1)
       end)%py.

(** One pass of the [while] loop of [delete_learners], lines 149-204. *)
Definition window_pass (self : SegmentApi) (learners : list (gmap string pyobj))
    (chunk_size curr_idx : Z) : M flow :=
  let start_idx := curr_idx in
  let end_idx := Z.min (start_idx + chunk_size - 1) (Z.of_nat (length learners) - 1) in
  (id0 <- lift (learner_field learners start_idx "id") ;;
   name0 <- lift (learner_field learners start_idx "original_username") ;;
   id1 <- lift (learner_field learners end_idx "id") ;;
   name1 <- lift (learner_field learners end_idx "original_username") ;;
   LOG (AttemptingDeletion start_idx end_idx id0 name0 id1 name1) ;;;
   learner_vals <- lift (flatten_window learners start_idx end_idx) ;;
   check_and_submit self start_idx end_idx learner_vals)%py.

(** The [while] loop, run for at most [fuel] passes. *)
Fixpoint window_loop (fuel : nat) (self : SegmentApi) (learners : list (gmap string pyobj))
    (chunk_size curr_idx : Z) (w : world) : run pyobj * world :=
  if curr_idx <? Z.of_nat (length learners) then
    match fuel with
    | O => (StillRunning, w)
    | S fuel' =>
        match window_pass self learners chunk_size curr_idx w with
        | (Returned Continue, w') =>
            window_loop fuel' self learners chunk_size (curr_idx + chunk_size) w'
        | (Returned (Return v), w') => (Finished (Returned v), w')
        | (Raised e, w') => (Finished (Raised e), w')
        end
    end
  else (Finished (Returned PyNone), w).

Definition delete_learners (fuel : nat) (self : SegmentApi) (learners : list (gmap string pyobj))
    (chunk_size beginning_idx : Z) (w : world) : run pyobj * world :=
  window_loop fuel self learners chunk_size beginning_idx w.

(** One learner is one window; one pass ends the loop. *)
Definition delete_learner (self : SegmentApi) (learner : gmap string pyobj) (w : world)
    : run pyobj * world :=
  delete_learners 1 self [learner] 1 0 w.

(** The function has no [return]: it hands back [None]. *)
Definition get_bulk_delete_status (self : SegmentApi) (bulk_delete_id : pyobj) : M pyobj :=
  (resp <- _call_segment_get self (BULK_DELETE_STATUS_URL (workspace_slug self) bulk_delete_id) ;;
   resp_json <- lift (or_raise JSONDecodeError (json resp)) ;;
   LOG (StatusLogged (text_type resp_json)) ;;;
   ret PyNone)%py.

(** The two inner layers of [_retry_segment_api] around one request. *)
Definition timeout_layer (req : request) : M response :=
  on_exception is_Timeout MAX_TRIES never (send_checked req).

Definition http_layer (req : request) : M response :=
  on_exception is_HTTPError MAX_TRIES _http_status_giveup (timeout_layer req).

End Client.

(** ** Vocabulary of the properties *)

(** A learner record with both required fields. *)
Definition well_formed (learner : gmap string pyobj) : Prop :=
  is_Some (learner !! "id") /\ is_Some (learner !! "original_username").

(** The values a learner record is to contribute: its [id], its
    [original_username], and its [ecommerce_segment_id] when it has one,
    each as text. *)
Definition learner_values (learner : gmap string pyobj) : list string :=
  text_type <$> (option_list (learner !! "id")
                   ++ option_list (learner !! "original_username")
                   ++ option_list (learner !! "ecommerce_segment_id")).

(** The [k]-th window of [c] records. *)
Definition window (c : nat) (learners : list (gmap string pyobj)) (k : nat)
    : list (gmap string pyobj) :=
  take c (drop (k * c) learners).

(** ceil(n / c) *)
Definition num_windows (c n : nat) : nat := ((n + c - 1) / c)%nat.

(** The request that submits the records [ls] as one window. *)
Definition window_request (self : SegmentApi) (ls : list (gmap string pyobj)) : request :=
  post_request self (BULK_DELETE_URL (workspace_slug self))
    (bulk_delete_params (ls ≫= learner_values)).

(** The identifier values a request carries. *)
Definition request_values (req : request) : list pyobj :=
  match req_json req with
  | Some params =>
      match (attributes <~ subscript params "attributes" ;; subscript attributes "values")%py with
      | Returned (PyList values) => values
      | _ => []
      end
  | None => []
  end.

(** The world after one more request. *)
Definition sent (req : request) (w : world) : world :=
  mk_world (http_log w ++ [req]) (log w).

(** The world after one more log record. *)
Definition logged (ev : log_event) (w : world) : world :=
  mk_world (http_log w) (log w ++ [ev]).

(** The statuses for which [raise_for_status] raises. *)
Definition is_error_status (resp : response) : bool :=
  (400 <=? status_code resp) && (status_code resp <? 600).

(** The last index of the window that starts at [curr_idx]. *)
Definition end_of (learners : list (gmap string pyobj)) (chunk_size curr_idx : Z) : Z :=
  Z.min (curr_idx + chunk_size - 1) (Z.of_nat (length learners) - 1).

(** A reply with which a submission succeeds at once. *)
Definition accepted (rep : reply) : Prop :=
  exists resp resp_json id,
    rep = Reply resp /\ ~ (400 <= status_code resp < 600) /\
    json resp = Some resp_json /\ subscript resp_json "regulate_id" = Returned id.

(** Statuses after which the HTTP layer tries again. *)
Definition retryable (resp : response) : Prop :=
  status_code resp = 429 \/ 500 <= status_code resp < 600.

(** The run of the window loop comes to an end. *)
Definition terminates (server : list request -> request -> reply) (self : SegmentApi)
    (learners : list (gmap string pyobj)) (chunk_size beginning_idx : Z) (w : world) : Prop :=
  exists fuel o w',
    delete_learners server fuel self learners chunk_size beginning_idx w = (Finished o, w').

(** A computation whose result and requests do not depend on the log. *)
Definition log_blind {A : Type} (f : M A) : Prop :=
  forall w w0, http_log w0 = http_log w ->
    fst (f w0) = fst (f w) /\ http_log (snd (f w0)) = http_log (snd (f w)).

(** ** Sample inputs *)

Definition sample_api : SegmentApi :=
  mk_SegmentApi "https://platform.segmentapis.com/" "secret" "edx".

Definition sample_learner (n : Z) : gmap string pyobj :=
  <["id" := PyInt n]> (<["original_username" := PyStr ("user" +:+ str_int n)]> ∅).

Definition sample_learners (n : Z) : list (gmap string pyobj) :=
  sample_learner <$> py_range 0 n.

Definition quoted (s : string) : string := String dquote s +:+ String dquote "".

Definition queued_response : response :=
  mk_response 200 ("{" +:+ quoted "regulate_id" +:+ ": " +:+ quoted "1a2b" +:+ "}")
    (Some (PyDict [("regulate_id", PyStr "1a2b")])).

(** A server that accepts everything. *)
Definition accepting_server (h : list request) (req : request) : reply :=
  Reply queued_response.

(** A server that answers the [n]-th request with the [n]-th reply of a
    script, and accepts what comes after. *)
Definition scripted_server (script : list reply) (h : list request) (req : request) : reply :=
  nth (length h) script (Reply queued_response).

Definition fresh_world : world := mk_world [] [].

(** An error response whose text says what went wrong. *)
Definition unknown_workspace_response (code : Z) : response :=
  mk_response code "workspace edx is not known" None.

Definition status_body : pyobj := PyDict [("overall_status", PyStr "FINISHED")].

Definition status_response : response :=
  mk_response 200 ("{" +:+ quoted "overall_status" +:+ ": " +:+ quoted "FINISHED" +:+ "}")
    (Some status_body).

(** One 404. *)
Definition unknown_workspace_server : list request -> request -> reply :=
  scripted_server [Reply (unknown_workspace_response 404)].

(** A 500, then a 404. *)
Definition failing_server : list request -> request -> reply :=
  scripted_server [Reply (unknown_workspace_response 500);
                   Reply (unknown_workspace_response 404)].

(** A 500, then the request is queued. *)
Definition recovering_server : list request -> request -> reply :=
  scripted_server [Reply (unknown_workspace_response 500); Reply queued_response].

Definition status_server : list request -> request -> reply :=
  scripted_server [Reply status_response].

Definition sample_request : request :=
  window_request sample_api (sample_learners 1).

(** ** Vocabulary of the further properties *)

(** The number of retry records ("Trying again in ...") among log records. *)
Fixpoint count_retries (evs : list log_event) : nat :=
  match evs with
  | [] => 0
  | TryingAgain _ :: rest => S (count_retries rest)
  | _ :: rest => count_retries rest
  end.

(** A window that the server takes: its records have the required fields,
    its values stay below the ceiling, and its request is accepted
    whenever it is sent. *)
Definition goes_through (server : list request -> request -> reply) (self : SegmentApi)
    (records : list (gmap string pyobj)) : Prop :=
  Forall well_formed records /\
  (length (records ≫= learner_values) < MAXIMUM_USERS_IN_DELETE_REQUEST)%nat /\
  forall h, accepted (server h (window_request self records)).

(** The learners that have the optional key. *)
Definition has_segment_id (learner : gmap string pyobj) : bool :=
  bool_decide (is_Some (learner !! "ecommerce_segment_id")).

(** ** Further sample inputs *)

(** A server that never answers in time. *)
Definition silent_server (h : list request) (req : request) : reply := TimedOut.

(** A server that cannot be reached. *)
Definition unreachable_server (h : list request) (req : request) : reply := ConnectionFailed.

(** Two timeouts, then the request is queued. *)
Definition slow_server : list request -> request -> reply :=
  scripted_server [TimedOut; TimedOut; Reply queued_response].

(** Four times: three timeouts and a 500. *)
Definition stubborn_server : list request -> request -> reply :=
  scripted_server (concat (replicate 4 [TimedOut; TimedOut; TimedOut;
                                        Reply (unknown_workspace_response 500)])).

(** A 200 whose text is no JSON. *)
Definition garbled_response : response :=
  mk_response 200 "<html>Bad Gateway</html>" None.

Definition garbled_server (h : list request) (req : request) : reply := Reply garbled_response.

(** A learner with the optional key. *)
Definition sample_customer (n : Z) : gmap string pyobj :=
  <["ecommerce_segment_id" := PyStr ("AM+" +:+ str_int n)]> (sample_learner n).

Definition sample_customers (n : Z) : list (gmap string pyobj) :=
  sample_customer <$> py_range 0 n.

(** A server that rejects the requests with fewer than ten values. *)
Definition short_window_rejecting_server (h : list request) (req : request) : reply :=
  if (length (request_values req) <? 10)%nat
  then Reply (unknown_workspace_response 404)
  else Reply queued_response.

(** Five learners, then one without [original_username], then one more. *)
Definition incomplete_learners : list (gmap string pyobj) :=
  sample_learners 5 ++ [{["id" := PyInt 5]}; sample_learner 6].

(** 2000 learners without the optional key, then 2000 with it. *)
Definition mixed_learners : list (gmap string pyobj) :=
  sample_learners 2000 ++ sample_customers 2000.

(** * Properties *)

(** ** Lists, ranges and indices *)

Lemma getitem_nonneg {A : Type} (xs : list A) (i : Z) :
  0 <= i -> getitem xs i = xs !! Z.to_nat i.
Proof.
  intros Hi. unfold getitem.
  destruct (Z.ltb_spec i (Z.of_nat (length xs))) as [Hlt | Hge].
  - replace (0 <=? i) with true by (symmetry; apply Z.leb_le; lia). reflexivity.
  - replace (0 <=? i) with true by (symmetry; apply Z.leb_le; lia). simpl.
    replace (i <? 0) with false by (symmetry; apply Z.ltb_ge; lia).
    rewrite andb_false_r. symmetry. apply lookup_ge_None. lia.
Qed.

Lemma getitem_below {A : Type} (xs : list A) (i : Z) :
  i < - Z.of_nat (length xs) -> getitem xs i = None.
Proof.
  intros Hi. unfold getitem.
  replace (0 <=? i) with false by (symmetry; apply Z.leb_gt; lia).
  replace (- Z.of_nat (length xs) <=? i) with false by (symmetry; apply Z.leb_gt; lia).
  reflexivity.
Qed.

Lemma py_range_empty (a b : Z) : b <= a -> py_range a b = [].
Proof.
  intros Hba. unfold py_range. replace (Z.to_nat (b - a)) with 0%nat by lia. reflexivity.
Qed.

Lemma py_range_length (a b : Z) : length (py_range a b) = Z.to_nat (b - a).
Proof. unfold py_range. rewrite length_fmap. apply length_seq. Qed.

(** ** Flattening *)

Lemma flatten_learner_ok learners idx (learner : gmap string pyobj) acc :
  getitem learners idx = Some learner ->
  well_formed learner ->
  flatten_learner learners idx acc = Returned (acc ++ learner_values learner).
Proof.
  intros Hget [[i Hi] [u Hu]].
  unfold flatten_learner, learner_values, learner_field. cbn.
  rewrite Hget. cbn. rewrite Hi, Hu. cbn.
  destruct (learner !! "ecommerce_segment_id") as [e |] eqn:He; cbn.
  - by rewrite <- !app_assoc.
  - by rewrite <- !app_assoc.
Qed.

Lemma flatten_learner_missing learners idx (learner : gmap string pyobj) acc :
  getitem learners idx = Some learner ->
  ~ well_formed learner ->
  exists k, k ∈ REQUIRED_IDENTIFYING_KEYS /\ flatten_learner learners idx acc = Raised (KeyError k).
Proof.
  intros Hget Hwf.
  unfold flatten_learner, learner_field. cbn. rewrite Hget. cbn.
  destruct (learner !! "id") as [i |] eqn:Hi; cbn.
  - destruct (learner !! "original_username") as [u |] eqn:Hu; cbn.
    + destruct Hwf. split; eauto.
    + exists "original_username". split; [| done].
      apply elem_of_cons. right. apply elem_of_cons. by left.
  - exists "id". split; [| done]. apply elem_of_cons. by left.
Qed.

(** The flattening loop over a list of indices whose records are [ls]. *)
Lemma for_each_flatten_ok learners idxs (ls : list (gmap string pyobj)) acc :
  Forall2 (fun idx learner => getitem learners idx = Some learner) idxs ls ->
  Forall well_formed ls ->
  for_each idxs (flatten_learner learners) acc = Returned (acc ++ ls ≫= learner_values).
Proof.
  intros Hidx. revert acc.
  induction Hidx as [| idx learner idxs ls Hget _ IH]; intros acc Hwf.
  - cbn. by rewrite app_nil_r.
  - apply Forall_cons in Hwf as [Hl Hls]. cbn.
    rewrite (flatten_learner_ok _ _ learner) by done. cbn.
    rewrite IH by done. by rewrite <- app_assoc.
Qed.

Lemma for_each_flatten_missing learners idxs (ls : list (gmap string pyobj)) acc :
  Forall2 (fun idx learner => getitem learners idx = Some learner) idxs ls ->
  ~ Forall well_formed ls ->
  exists k, k ∈ REQUIRED_IDENTIFYING_KEYS /\
    for_each idxs (flatten_learner learners) acc = Raised (KeyError k).
Proof.
  intros Hidx. revert acc.
  induction Hidx as [| idx learner idxs ls Hget _ IH]; intros acc Hwf.
  - destruct Hwf. constructor.
  - cbn. destruct (decide (well_formed learner)) as [Hl | Hl].
    + rewrite (flatten_learner_ok _ _ learner) by done. cbn.
      apply IH. intros Hls. apply Hwf. by constructor.
    + destruct (flatten_learner_missing learners idx learner acc) as (k & Hk & ->); try done.
      by exists k.
Qed.

(** The records under the indices of a window inside the list. *)
Lemma window_indices (learners : list (gmap string pyobj)) (a b : Z) :
  0 <= a -> a <= b -> b <= Z.of_nat (length learners) ->
  Forall2 (fun idx learner => getitem learners idx = Some learner)
    (py_range a b) (take (Z.to_nat (b - a)) (drop (Z.to_nat a) learners)).
Proof.
  intros Ha Hab Hb.
  apply Forall2_same_length_lookup_2.
  - rewrite py_range_length, length_take, length_drop. lia.
  - intros i idx learner Hidx Hl.
    unfold py_range in Hidx. rewrite list_lookup_fmap in Hidx.
    destruct (seq 0 (Z.to_nat (b - a)) !! i) as [j |] eqn:Hj; [| done].
    apply lookup_seq in Hj as [-> Hi]. cbn in Hidx. injection Hidx as <-.
    rewrite lookup_take_lt in Hl by done. rewrite lookup_drop in Hl.
    rewrite getitem_nonneg by lia. rewrite <- Hl. f_equal. lia.
Qed.

Lemma flatten_window_ok learners start_idx end_idx :
  0 <= start_idx -> start_idx <= end_idx + 1 -> end_idx < Z.of_nat (length learners) ->
  Forall well_formed (take (Z.to_nat (end_idx + 1 - start_idx)) (drop (Z.to_nat start_idx) learners)) ->
  flatten_window learners start_idx end_idx =
    Returned (take (Z.to_nat (end_idx + 1 - start_idx)) (drop (Z.to_nat start_idx) learners)
                ≫= learner_values).
Proof.
  intros Hs Hse He Hwf. unfold flatten_window.
  erewrite (for_each_flatten_ok learners _ _ []); [done | | done].
  apply window_indices; lia.
Qed.

Lemma flatten_window_missing learners start_idx end_idx :
  0 <= start_idx -> start_idx <= end_idx + 1 -> end_idx < Z.of_nat (length learners) ->
  ~ Forall well_formed (take (Z.to_nat (end_idx + 1 - start_idx)) (drop (Z.to_nat start_idx) learners)) ->
  exists k, k ∈ REQUIRED_IDENTIFYING_KEYS /\
    flatten_window learners start_idx end_idx = Raised (KeyError k).
Proof.
  intros Hs Hse He Hwf. unfold flatten_window.
  eapply for_each_flatten_missing; [| done].
  apply window_indices; lia.
Qed.

(** ** Retrying *)

Section Retry.
Context {A : Type} (watched giveup : exn -> bool) (target : M A).

Lemma retry_loop_unfold more tries :
  retry_loop watched giveup target more tries =
  try_except target watched (fun e =>
    match more with
    | O => raise e
    | S more' =>
        if giveup e then raise e
        else (_backoff_handler tries e ;;; retry_loop watched giveup target more' (S tries))%py
    end).
Proof. by destruct more. Qed.

Lemma retry_loop_returned more tries w a w' :
  target w = (Returned a, w') ->
  retry_loop watched giveup target more tries w = (Returned a, w').
Proof. intros H. rewrite retry_loop_unfold. unfold try_except. by rewrite H. Qed.

Lemma retry_loop_unwatched more tries w e w' :
  target w = (Raised e, w') -> watched e = false ->
  retry_loop watched giveup target more tries w = (Raised e, w').
Proof. intros H He. rewrite retry_loop_unfold. unfold try_except. by rewrite H, He. Qed.

Lemma retry_loop_giveup more tries w e w' :
  target w = (Raised e, w') -> giveup e = true ->
  retry_loop watched giveup target more tries w = (Raised e, w').
Proof.
  intros H He. rewrite retry_loop_unfold. unfold try_except. rewrite H.
  destruct (watched e); [| done]. destruct more; [done |]. by rewrite He.
Qed.

Lemma retry_loop_last tries w e w' :
  target w = (Raised e, w') ->
  retry_loop watched giveup target 0 tries w = (Raised e, w').
Proof.
  intros H. rewrite retry_loop_unfold. unfold try_except. rewrite H.
  by destruct (watched e).
Qed.

Lemma retry_loop_again more tries w e w' :
  target w = (Raised e, w') -> watched e = true -> giveup e = false ->
  retry_loop watched giveup target (S more) tries w =
  retry_loop watched giveup target more (S tries) (snd (_backoff_handler tries e w')).
Proof.
  intros H Hw Hg. rewrite retry_loop_unfold. unfold try_except. rewrite H, Hw, Hg.
  unfold bind. by destruct e.
Qed.

Lemma backoff_handler_http_log tries e w :
  http_log (snd (_backoff_handler tries e w)) = http_log w.
Proof. by destruct e. Qed.

(** What the wrapped function raises, the target raised. *)
Lemma retry_loop_raises (P : exn -> Prop) :
  (forall w e w', target w = (Raised e, w') -> P e) ->
  forall more tries w e w',
    retry_loop watched giveup target more tries w = (Raised e, w') -> P e.
Proof.
  intros Htarget more. induction more as [| more IH]; intros tries w e w'.
  - rewrite retry_loop_unfold. unfold try_except.
    destruct (target w) as [[a | e0] w0] eqn:Hw; [done |].
    destruct (watched e0); unfold raise; intros [= <- <-]; eauto.
  - rewrite retry_loop_unfold. unfold try_except.
    destruct (target w) as [[a | e0] w0] eqn:Hw; [done |].
    destruct (watched e0); [| intros [= <- <-]; eauto].
    destruct (giveup e0); [unfold raise; intros [= <- <-]; eauto |].
    unfold bind. destruct (_backoff_handler tries e0 w0) as [[[] | e1] w1] eqn:Hb.
    + apply IH.
    + destruct e0; discriminate.
Qed.

(** Every call of the wrapped function sends what the target sends, at
    least once. *)
Lemma retry_loop_sends (req : request) :
  (forall w, exists n, (1 <= n)%nat /\ http_log (snd (target w)) = http_log w ++ repeat req n) ->
  forall more tries w, exists n, (1 <= n)%nat /\
    http_log (snd (retry_loop watched giveup target more tries w)) = http_log w ++ repeat req n.
Proof.
  intros Htarget more. induction more as [| more IH]; intros tries w.
  - destruct (Htarget w) as (n & Hn & Hlog). exists n. split; [done |].
    destruct (target w) as [[a | e] w'] eqn:Hw.
    + by rewrite (retry_loop_returned _ _ _ _ _ Hw).
    + by rewrite (retry_loop_last _ _ _ _ Hw).
  - destruct (Htarget w) as (n & Hn & Hlog).
    destruct (target w) as [[a | e] w'] eqn:Hw.
    + exists n. by rewrite (retry_loop_returned _ _ _ _ _ Hw).
    + destruct (watched e) eqn:Hwatched.
      * destruct (giveup e) eqn:Hgiveup.
        -- exists n. by rewrite (retry_loop_giveup _ _ _ _ _ Hw Hgiveup).
        -- rewrite (retry_loop_again _ _ _ _ _ Hw Hwatched Hgiveup).
           destruct (IH (S tries) (snd (_backoff_handler tries e w'))) as (n' & Hn' & Hlog').
           exists (n + n')%nat. split; [lia |].
           rewrite Hlog', backoff_handler_http_log. cbn in Hlog. rewrite Hlog.
           by rewrite repeat_app, app_assoc.
      * exists n. by rewrite (retry_loop_unwatched _ _ _ _ _ Hw Hwatched).
Qed.

(** A layer watching for an exception its target never raises is idle. *)
Lemma retry_loop_idle more tries w :
  (forall e w', target w = (Raised e, w') -> watched e = false) ->
  retry_loop watched giveup target more tries w = target w.
Proof.
  intros H. destruct (target w) as [[a | e] w'] eqn:Hw.
  - by apply retry_loop_returned.
  - apply retry_loop_unwatched; eauto.
Qed.
End Retry.

Section Calls.
Context (server : list request -> request -> reply).

Lemma send_checked_reply req w resp :
  server (http_log w) req = Reply resp ->
  send_checked server req w =
    (if is_error_status resp then Raised (HTTPError resp) else Returned resp, sent req w).
Proof.
  intros H. unfold send_checked, bind, requests_send, raise_for_status, is_error_status.
  rewrite H. by destruct (_ && _).
Qed.

Lemma send_checked_sends req w :
  exists n, (1 <= n)%nat /\
    http_log (snd (send_checked server req w)) = http_log w ++ repeat req n.
Proof.
  exists 1%nat. split; [done |].
  unfold send_checked, bind, requests_send, raise_for_status.
  destruct (server (http_log w) req) as [resp | |]; try done.
  by destruct (_ && _).
Qed.

Lemma send_checked_no_decode_error req w e w' :
  send_checked server req w = (Raised e, w') -> is_JSONDecodeError e = false.
Proof.
  unfold send_checked, bind, requests_send, raise_for_status.
  destruct (server (http_log w) req) as [resp | |].
  - destruct (_ && _); [| done]. by intros [= <- <-].
  - by intros [= <- <-].
  - by intros [= <- <-].
Qed.

Lemma timeout_layer_reply req w resp :
  server (http_log w) req = Reply resp ->
  timeout_layer server req w =
    (if is_error_status resp then Raised (HTTPError resp) else Returned resp, sent req w).
Proof.
  intros H. unfold timeout_layer, on_exception.
  pose proof (send_checked_reply req w resp H) as Hs.
  destruct (is_error_status resp).
  - by apply retry_loop_unwatched.
  - by apply retry_loop_returned.
Qed.

Lemma timeout_layer_sends req w :
  exists n, (1 <= n)%nat /\
    http_log (snd (timeout_layer server req w)) = http_log w ++ repeat req n.
Proof. apply retry_loop_sends, send_checked_sends. Qed.

Lemma http_layer_sends req w :
  exists n, (1 <= n)%nat /\
    http_log (snd (http_layer server req w)) = http_log w ++ repeat req n.
Proof. apply retry_loop_sends. intros w0. apply timeout_layer_sends. Qed.

(** The decode layer never sees a decode failure: the wrapped functions
    do not decode. *)
Lemma retry_segment_api_http_layer req w :
  _retry_segment_api (send_checked server req) w = http_layer server req w.
Proof.
  unfold _retry_segment_api, on_exception. apply retry_loop_idle.
  intros e w'.
  apply (retry_loop_raises _ _ _ (fun e => is_JSONDecodeError e = false)).
  apply (retry_loop_raises _ _ _ (fun e => is_JSONDecodeError e = false)).
  intros w0 e0 w0'. apply send_checked_no_decode_error.
Qed.

Lemma retry_segment_api_sends req w :
  exists n, (1 <= n)%nat /\
    http_log (snd (_retry_segment_api (send_checked server req) w)) = http_log w ++ repeat req n.
Proof. rewrite retry_segment_api_http_layer. apply http_layer_sends. Qed.

Lemma retryable_spec resp :
  retryable resp -> is_error_status resp = true /\ _http_status_giveup (HTTPError resp) = false.
Proof.
  unfold retryable, is_error_status, _http_status_giveup. intros [-> | H].
  - done.
  - split; [apply andb_true_intro; split; [apply Z.leb_le | apply Z.ltb_lt]; lia |].
    replace ((500 <=? status_code resp) && (status_code resp <? 600)) with true.
    + apply andb_false_r.
    + symmetry. apply andb_true_intro; split; [apply Z.leb_le | apply Z.ltb_lt]; lia.
Qed.

Lemma not_retryable_spec resp :
  ~ retryable resp -> _http_status_giveup (HTTPError resp) = true.
Proof.
  unfold retryable, _http_status_giveup. intros H.
  apply andb_true_intro; split; apply negb_true_iff.
  - apply Z.eqb_neq. intros Heq. apply H. by left.
  - apply andb_false_iff.
    destruct (Z.leb_spec 500 (status_code resp)); [right | by left].
    apply Z.ltb_ge. destruct (Z.lt_ge_cases (status_code resp) 600); [| lia].
    destruct H. right. lia.
Qed.

(** After [j] retryable error replies the HTTP layer is at its try
    number [tries + j], having sent [j] requests. *)
Lemma http_layer_after_errors req j :
  forall more tries w,
    (j <= more)%nat ->
    (forall i, (i < j)%nat -> exists resp,
        server (http_log w ++ repeat req i) req = Reply resp /\ retryable resp) ->
    exists w_j,
      http_log w_j = http_log w ++ repeat req j /\
      retry_loop is_HTTPError _http_status_giveup (timeout_layer server req) more tries w =
      retry_loop is_HTTPError _http_status_giveup (timeout_layer server req)
        (more - j) (tries + j) w_j.
Proof.
  induction j as [| j IH]; intros more tries w Hj Hscript.
  - exists w. cbn. rewrite app_nil_r, Nat.sub_0_r, Nat.add_0_r. done.
  - destruct more as [| more]; [lia |].
    destruct (Hscript 0%nat) as (resp & Hreply & Hretry); [lia |].
    cbn in Hreply. rewrite app_nil_r in Hreply.
    apply retryable_spec in Hretry as [Herr Hgiveup].
    pose proof (timeout_layer_reply req w resp Hreply) as Ht. rewrite Herr in Ht.
    rewrite (retry_loop_again _ _ _ _ _ _ _ _ Ht eq_refl Hgiveup).
    set (w1 := snd (_backoff_handler tries (HTTPError resp) (sent req w))).
    assert (Hw1 : http_log w1 = http_log w ++ [req]) by (subst w1; by rewrite backoff_handler_http_log).
    destruct (IH more (S tries) w1) as (w_j & Hlog & Heq).
    + lia.
    + intros i Hi. destruct (Hscript (S i)) as (resp' & Hreply' & Hretry'); [lia |].
      exists resp'. split; [| done]. rewrite Hw1, <- app_assoc. exact Hreply'.
    + exists w_j. split.
      * rewrite Hlog, Hw1, <- app_assoc. done.
      * rewrite Heq. f_equal. lia.
Qed.

(** C5: for every request that [_call_segment_post] or
    [_call_segment_get] wraps (both are [_retry_segment_api] around
    [send_checked]), an HTTP error response met at try number [j + 1],
    after [j] < 4 error responses that were retried, is followed by another
    try if and only if its status is 429 or in 500..599 and fewer than 4
    tries were made; otherwise, so for any other status such as 404, also
    on the first try, and for any status on the fourth try, that error is
    raised to the caller and no further request is sent. *)
Theorem http_error_retry_policy req w (j : nat) resp :
  (j < 4)%nat ->
  (forall i, (i < j)%nat -> exists resp_i,
      server (http_log w ++ repeat req i) req = Reply resp_i /\
      (status_code resp_i = 429 \/ 500 <= status_code resp_i < 600)) ->
  server (http_log w ++ repeat req j) req = Reply resp ->
  400 <= status_code resp < 600 ->
  let '(res, w') := _retry_segment_api (send_checked server req) w in
  (((status_code resp = 429 \/ 500 <= status_code resp < 600) /\ (j < 3)%nat) ->
     exists n, (1 <= n)%nat /\ http_log w' = http_log w ++ repeat req (j + 1 + n))
  /\ ((~ (status_code resp = 429 \/ 500 <= status_code resp < 600) \/ j = 3%nat) ->
     res = Raised (HTTPError resp) /\ http_log w' = http_log w ++ repeat req (j + 1)).
Proof.
  intros Hj Hscript Hreply Herror.
  rewrite retry_segment_api_http_layer. unfold http_layer, on_exception.
  destruct (http_layer_after_errors req j (MAX_TRIES - 1) 1 w) as (w_j & Hlog & ->).
  { unfold MAX_TRIES. lia. }
  { exact Hscript. }
  rewrite <- Hlog in Hreply.
  pose proof (timeout_layer_reply req w_j resp Hreply) as Ht.
  assert (Herr : is_error_status resp = true).
  { unfold is_error_status. apply andb_true_intro; split; [apply Z.leb_le | apply Z.ltb_lt]; lia. }
  rewrite Herr in Ht.
  assert (Hsent : http_log (sent req w_j) = http_log w ++ repeat req (j + 1)).
  { cbn. rewrite Hlog, repeat_app, app_assoc. done. }
  destruct (retry_loop _ _ _ _ _ w_j) as [res w'] eqn:Hrun.
  split.
  - intros [Hretry Hj3].
    apply (retryable_spec resp) in Hretry as [_ Hgiveup].
    replace (MAX_TRIES - 1 - j)%nat with (S (2 - j)) in Hrun by (unfold MAX_TRIES; lia).
    rewrite (retry_loop_again _ _ _ _ _ _ _ _ Ht eq_refl Hgiveup) in Hrun.
    match type of Hrun with retry_loop _ _ _ ?m ?t ?w0 = _ =>
      destruct (retry_loop_sends is_HTTPError _http_status_giveup (timeout_layer server req) req
                  (timeout_layer_sends req) m t w0) as (n & Hn & Hn') end.
    rewrite Hrun in Hn'. cbn [snd] in Hn'. exists n. split; [done |].
    rewrite Hn', backoff_handler_http_log, Hsent, <- app_assoc, <- repeat_app. done.
  - intros [Hno | ->].
    + apply not_retryable_spec in Hno.
      rewrite (retry_loop_giveup _ _ _ _ _ _ _ _ Ht Hno) in Hrun.
      injection Hrun as <- <-. done.
    + change (MAX_TRIES - 1 - 3)%nat with 0%nat in Hrun. rewrite (retry_loop_last _ _ _ _ _ _ _ Ht) in Hrun.
      injection Hrun as <- <-. done.
Qed.
End Calls.

(** ** One pass of the window loop *)

Lemma for_each_inv {A S : Type} (body : A -> S -> outcome S) xs :
  forall acc r, for_each xs body acc = Returned r ->
    forall x, x ∈ xs -> exists a b, body x a = Returned b.
Proof.
  induction xs as [| x0 xs IH]; intros acc r Hrun x Hx.
  - by apply elem_of_nil in Hx.
  - cbn in Hrun. destruct (body x0 acc) as [acc' | e] eqn:Hb; [| done].
    apply elem_of_cons in Hx as [-> | Hx]; eauto.
Qed.

Lemma flatten_learner_fields learners idx a b :
  flatten_learner learners idx a = Returned b ->
  exists i u, learner_field learners idx "id" = Returned i /\
              learner_field learners idx "original_username" = Returned u.
Proof.
  unfold flatten_learner, learner_field. cbn.
  destruct (getitem learners idx) as [learner |]; cbn; [| done].
  destruct (learner !! "id") as [i |]; cbn; [| done].
  destruct (learner !! "original_username") as [u |]; cbn; [| done].
  eauto.
Qed.

Lemma flattened_fields learners start_idx end_idx vals :
  flatten_window learners start_idx end_idx = Returned vals ->
  start_idx <= end_idx ->
  exists id0 name0 id1 name1,
    learner_field learners start_idx "id" = Returned id0 /\
    learner_field learners start_idx "original_username" = Returned name0 /\
    learner_field learners end_idx "id" = Returned id1 /\
    learner_field learners end_idx "original_username" = Returned name1.
Proof.
  intros Hflat Hle. unfold flatten_window in Hflat.
  assert (Hin : forall idx, start_idx <= idx <= end_idx -> idx ∈ py_range start_idx (end_idx + 1)).
  { intros idx Hidx. unfold py_range. apply list_elem_of_fmap.
    exists (Z.to_nat (idx - start_idx)). split; [lia |].
    apply elem_of_seq. lia. }
  destruct (for_each_inv _ _ _ _ Hflat start_idx) as (a0 & b0 & H0); [apply Hin; lia |].
  destruct (for_each_inv _ _ _ _ Hflat end_idx) as (a1 & b1 & H1); [apply Hin; lia |].
  apply flatten_learner_fields in H0 as (id0 & name0 & ? & ?).
  apply flatten_learner_fields in H1 as (id1 & name1 & ? & ?).
  by exists id0, name0, id1, name1.
Qed.

Lemma flattened_nonempty learners start_idx end_idx vals :
  flatten_window learners start_idx end_idx = Returned vals ->
  vals <> [] -> start_idx <= end_idx.
Proof.
  intros Hflat Hvals. destruct (Z.le_gt_cases start_idx end_idx) as [| Hgt]; [done |].
  unfold flatten_window in Hflat. rewrite py_range_empty in Hflat by lia.
  cbn in Hflat. congruence.
Qed.

Lemma request_values_params self url vals :
  request_values (post_request self url (bulk_delete_params vals)) = PyStr <$> vals.
Proof. reflexivity. Qed.

Section Windows.
Context (server : list request -> request -> reply) (self : SegmentApi).

Lemma window_pass_flattened learners chunk_size curr_idx vals w :
  flatten_window learners curr_idx (end_of learners chunk_size curr_idx) = Returned vals ->
  curr_idx <= end_of learners chunk_size curr_idx ->
  exists id0 name0 id1 name1,
    window_pass server self learners chunk_size curr_idx w =
    check_and_submit server self curr_idx (end_of learners chunk_size curr_idx) vals
      (logged (AttemptingDeletion curr_idx (end_of learners chunk_size curr_idx)
                 id0 name0 id1 name1) w).
Proof.
  intros Hflat Hle.
  destruct (flattened_fields _ _ _ _ Hflat Hle) as (id0 & name0 & id1 & name1 & H0 & H1 & H2 & H3).
  exists id0, name0, id1, name1.
  unfold window_pass. fold (end_of learners chunk_size curr_idx).
  unfold bind, lift. rewrite H0, H1, H2, H3, Hflat. reflexivity.
Qed.

Lemma check_and_submit_ceiling start_idx end_idx vals w :
  (MAXIMUM_USERS_IN_DELETE_REQUEST <= length vals)%nat ->
  check_and_submit server self start_idx end_idx vals w =
    (Returned (Return PyNone), logged (TooManyValues (length vals)) w).
Proof.
  intros H. unfold check_and_submit.
  by replace (_ <=? _)%nat with true by (symmetry; by apply Nat.leb_le).
Qed.

Lemma check_and_submit_below start_idx end_idx vals w :
  (length vals < MAXIMUM_USERS_IN_DELETE_REQUEST)%nat ->
  check_and_submit server self start_idx end_idx vals w =
    match submit_window server self (bulk_delete_params vals) w with
    | ((Returned _, _), w1) => (Returned Continue, w1)
    | ((Raised exc, resp_json), w1) =>
        if caught_by_delete_learners exc then
          (Raised (Exception (error_message start_idx end_idx resp_json)),
           logged (ErrorLogged (error_message start_idx end_idx resp_json))
             (logged (ExceptionLogged exc) w1))
        else (Raised exc, w1)
    end.
Proof.
  intros H. unfold check_and_submit.
  replace (_ <=? _)%nat with false by (symmetry; by apply Nat.leb_gt).
  destruct (submit_window _ _ _ _) as [[[[] | exc] resp_json] w1]; [done |].
  by destruct (caught_by_delete_learners exc).
Qed.

(** The window's request at the endpoint, however often it is sent. *)
Lemma submit_window_sends params w :
  exists n, (1 <= n)%nat /\
    http_log (snd (submit_window server self params w)) =
    http_log w ++ repeat (post_request self (BULK_DELETE_URL (workspace_slug self)) params) n.
Proof.
  unfold submit_window, _call_segment_post.
  destruct (retry_segment_api_sends server
              (post_request self (BULK_DELETE_URL (workspace_slug self)) params) w)
    as (n & Hn & Hlog).
  exists n. split; [done |].
  destruct (_retry_segment_api _ w) as [[resp | e] w1]; [| done].
  destruct (json resp) as [resp_json |]; [| done].
  by destruct (subscript resp_json "regulate_id").
Qed.

Lemma check_and_submit_sends start_idx end_idx vals w :
  exists n,
    http_log (snd (check_and_submit server self start_idx end_idx vals w)) =
    http_log w ++ repeat (post_request self (BULK_DELETE_URL (workspace_slug self))
                            (bulk_delete_params vals)) n /\
    (n <> 0%nat -> (length vals < MAXIMUM_USERS_IN_DELETE_REQUEST)%nat).
Proof.
  destruct (Nat.le_gt_cases MAXIMUM_USERS_IN_DELETE_REQUEST (length vals)) as [Hge | Hlt].
  - exists 0%nat. rewrite check_and_submit_ceiling by done. cbn. by rewrite app_nil_r.
  - destruct (submit_window_sends (bulk_delete_params vals) w) as (n & Hn & Hlog).
    exists n. split; [| done]. rewrite check_and_submit_below by done.
    destruct (submit_window _ _ _ _) as [[[[] | exc] resp_json] w1]; [done |].
    by destruct (caught_by_delete_learners exc).
Qed.

Lemma window_pass_sends learners chunk_size curr_idx w :
  exists vals n,
    http_log (snd (window_pass server self learners chunk_size curr_idx w)) =
    http_log w ++ repeat (post_request self (BULK_DELETE_URL (workspace_slug self))
                            (bulk_delete_params vals)) n /\
    (n <> 0%nat -> (length vals < MAXIMUM_USERS_IN_DELETE_REQUEST)%nat).
Proof.
  assert (Hnone : exists (vals : list string) (n : nat),
             http_log w = http_log w ++ repeat (post_request self
               (BULK_DELETE_URL (workspace_slug self)) (bulk_delete_params vals)) n /\
             (n <> 0%nat -> (length vals < MAXIMUM_USERS_IN_DELETE_REQUEST)%nat)).
  { exists [], 0%nat. cbn. by rewrite app_nil_r. }
  unfold window_pass, bind, lift.
  destruct (learner_field learners curr_idx "id"); [| done].
  destruct (learner_field learners curr_idx "original_username"); [| done].
  destruct (learner_field learners _ "id"); [| done].
  destruct (learner_field learners _ "original_username"); [| done].
  cbn [LOG].
  destruct (flatten_window learners curr_idx _) as [vals | e]; [| done].
  exists vals.
  apply (check_and_submit_sends curr_idx _ vals (logged (AttemptingDeletion _ _ _ _ _ _) w)).
Qed.

(** Whatever a run of the loop sends carries fewer values than the
    ceiling. *)
Lemma window_loop_requests fuel learners chunk_size :
  forall curr_idx w, exists new,
    http_log (snd (window_loop server fuel self learners chunk_size curr_idx w)) =
      http_log w ++ new /\
    Forall (fun req => (length (request_values req) < MAXIMUM_USERS_IN_DELETE_REQUEST)%nat) new.
Proof.
  induction fuel as [| fuel IH]; intros curr_idx w.
  - exists []. rewrite app_nil_r. split; [| constructor].
    cbn. by destruct (_ <? _).
  - cbn [window_loop]. destruct (_ <? _).
    + destruct (window_pass_sends learners chunk_size curr_idx w) as (vals & n & Hlog & Hn).
      assert (Hsmall : Forall (fun req => (length (request_values req)
                                 < MAXIMUM_USERS_IN_DELETE_REQUEST)%nat)
                (repeat (post_request self (BULK_DELETE_URL (workspace_slug self))
                           (bulk_delete_params vals)) n)).
      { destruct n as [| n]; [constructor |].
        apply Forall_forall. intros req Hreq. apply list_elem_of_In, repeat_spec in Hreq as ->.
        rewrite request_values_params, length_fmap. by apply Hn. }
      destruct (window_pass _ _ _ _ _ w) as [[[| v] | e] w1]; cbn [snd] in Hlog.
      * destruct (IH (curr_idx + chunk_size) w1) as (new & Hnew & Hall).
        eexists. rewrite Hnew, Hlog, <- app_assoc. split; [done |].
        by apply Forall_app.
      * by eexists.
      * by eexists.
    + exists []. rewrite app_nil_r. split; [done | constructor].
Qed.
End Windows.

Lemma learner_field_cases (learners : list (gmap string pyobj)) idx key :
  0 <= idx < Z.of_nat (length learners) ->
  (exists v, learner_field learners idx key = Returned v) \/
  learner_field learners idx key = Raised (KeyError key).
Proof.
  intros Hidx. unfold learner_field. rewrite getitem_nonneg by lia.
  destruct (lookup_lt_is_Some_2 learners (Z.to_nat idx)) as [learner ->]; [lia |].
  cbn. destruct (learner !! key); cbn; eauto.
Qed.

Lemma end_of_bounds (learners : list (gmap string pyobj)) chunk_size curr_idx :
  1 <= chunk_size -> 0 <= curr_idx < Z.of_nat (length learners) ->
  curr_idx <= end_of learners chunk_size curr_idx < Z.of_nat (length learners).
Proof. unfold end_of. lia. Qed.

Lemma id_required : "id" ∈ REQUIRED_IDENTIFYING_KEYS.
Proof. unfold REQUIRED_IDENTIFYING_KEYS. apply elem_of_cons. by left. Qed.

Lemma original_username_required : "original_username" ∈ REQUIRED_IDENTIFYING_KEYS.
Proof. unfold REQUIRED_IDENTIFYING_KEYS. apply elem_of_cons. right. apply elem_of_cons. by left. Qed.

Section Ceiling.
Context (server : list request -> request -> reply) (self : SegmentApi).

Lemma ceiling_pass learners chunk_size curr_idx vals w fuel :
  flatten_window learners curr_idx (end_of learners chunk_size curr_idx) = Returned vals ->
  (MAXIMUM_USERS_IN_DELETE_REQUEST <= length vals)%nat ->
  exists id0 name0 id1 name1,
    delete_learners server (S fuel) self learners chunk_size curr_idx w =
    (Finished (Returned PyNone),
     logged (TooManyValues (length vals))
       (logged (AttemptingDeletion curr_idx (end_of learners chunk_size curr_idx)
                  id0 name0 id1 name1) w)).
Proof.
  intros Hflat Hlen.
  assert (Hle : curr_idx <= end_of learners chunk_size curr_idx).
  { apply (flattened_nonempty _ _ _ _ Hflat). intros ->. cbn in Hlen.
    unfold MAXIMUM_USERS_IN_DELETE_REQUEST in Hlen. lia. }
  destruct (window_pass_flattened server self _ _ _ _ w Hflat Hle)
    as (id0 & name0 & id1 & name1 & Hpass).
  exists id0, name0, id1, name1.
  unfold delete_learners. cbn [window_loop].
  replace (curr_idx <? Z.of_nat (length learners)) with true
    by (symmetry; apply Z.ltb_lt; unfold end_of in Hle; lia).
  rewrite Hpass, check_and_submit_ceiling by done. reflexivity.
Qed.

(** C2: a window whose flattened values number 5000 or more is never
    submitted.  First, whatever the inputs, the server and the fuel, every
    request a run of [delete_learners] sends carries fewer than 5000
    values.  Second, when the window at [curr_idx] flattens to 5000 values
    or more, the run from that window ends at once, returning, and the
    requests sent are those sent before: no call for this window or for
    any later one. *)
Theorem window_at_ceiling_not_submitted :
  (forall fuel learners chunk_size beginning_idx w, exists new,
      http_log (snd (delete_learners server fuel self learners chunk_size beginning_idx w)) =
        http_log w ++ new /\
      Forall (fun req => (length (request_values req) < 5000)%nat) new)
  /\
  (forall fuel learners chunk_size curr_idx w vals,
      flatten_window learners curr_idx (end_of learners chunk_size curr_idx) = Returned vals ->
      (5000 <= length vals)%nat ->
      exists w',
        delete_learners server (S fuel) self learners chunk_size curr_idx w =
          (Finished (Returned PyNone), w') /\
        http_log w' = http_log w).
Proof.
  split.
  - intros. apply window_loop_requests.
  - intros fuel learners chunk_size curr_idx w vals Hflat Hlen.
    destruct (ceiling_pass _ _ _ _ w fuel Hflat Hlen) as (id0 & name0 & id1 & name1 & ->).
    eauto.
Qed.

(** C3, amended: when the window at [curr_idx] flattens to 5000 values or
    more, [delete_learners] ends the whole run at once without raising and
    without a retry, and sends no request.  The error is logged, not
    handed to the caller: the run writes the ERROR record with the number
    of values (the message that asks to decrease chunk_size), right after
    the INFO record of the attempt, and returns [None], which is what a
    run that submitted every window returns too. *)
Theorem ceiling_reported_without_raising fuel learners chunk_size curr_idx w vals :
  flatten_window learners curr_idx (end_of learners chunk_size curr_idx) = Returned vals ->
  (5000 <= length vals)%nat ->
  exists w' attempt,
    delete_learners server (S fuel) self learners chunk_size curr_idx w =
      (Finished (Returned PyNone), w') /\
    log w' = log w ++ [attempt; TooManyValues (length vals)] /\
    level_of attempt = INFO /\
    level_of (TooManyValues (length vals)) = ERROR /\
    http_log w' = http_log w.
Proof.
  intros Hflat Hlen.
  destruct (ceiling_pass _ _ _ _ w fuel Hflat Hlen) as (id0 & name0 & id1 & name1 & ->).
  eexists _, _. split; [done |]. cbn. rewrite <- app_assoc. done.
Qed.

(** C8: if a learner of the window that starts at [curr_idx] (an index
    between [curr_idx] and the window's last index) lacks [id] or
    [original_username], the pass for that window raises [KeyError] for a
    required key, before or during the flattening, and no request is sent
    for the window. *)
Theorem missing_required_field_fails fuel learners chunk_size curr_idx w idx
    (learner : gmap string pyobj) :
  1 <= chunk_size ->
  0 <= curr_idx < Z.of_nat (length learners) ->
  curr_idx <= idx <= end_of learners chunk_size curr_idx ->
  learners !! Z.to_nat idx = Some learner ->
  learner !! "id" = None \/ learner !! "original_username" = None ->
  exists key w',
    key ∈ REQUIRED_IDENTIFYING_KEYS /\
    delete_learners server (S fuel) self learners chunk_size curr_idx w =
      (Finished (Raised (KeyError key)), w') /\
    http_log w' = http_log w.
Proof.
  intros Hc Hcurr Hidx Hlearner Hmissing.
  pose proof (end_of_bounds learners chunk_size curr_idx Hc Hcurr) as Hend.
  unfold delete_learners. cbn [window_loop].
  replace (curr_idx <? Z.of_nat (length learners)) with true by (symmetry; apply Z.ltb_lt; lia).
  unfold window_pass. fold (end_of learners chunk_size curr_idx). unfold bind, lift.
  assert (Hraise : forall key w0, key ∈ REQUIRED_IDENTIFYING_KEYS ->
            exists key' w', key' ∈ REQUIRED_IDENTIFYING_KEYS /\
              (Finished (Raised (KeyError key)), w0) =
                (Finished (Raised (KeyError key') : outcome pyobj), w') /\
              http_log w' = http_log w0) by eauto.
  assert (Hstart : 0 <= curr_idx < Z.of_nat (length learners)) by lia.
  assert (Hlast : 0 <= end_of learners chunk_size curr_idx < Z.of_nat (length learners)) by lia.
  destruct (learner_field_cases learners _ "id" Hstart) as [[id0 H0] | H0]; rewrite H0;
    [| apply Hraise, id_required].
  destruct (learner_field_cases learners _ "original_username" Hstart) as [[name0 H1] | H1];
    rewrite H1; [| apply Hraise, original_username_required].
  destruct (learner_field_cases learners _ "id" Hlast) as [[id1 H2] | H2]; rewrite H2;
    [| apply Hraise, id_required].
  destruct (learner_field_cases learners _ "original_username" Hlast) as [[name1 H3] | H3];
    rewrite H3; [| apply Hraise, original_username_required].
  cbn [LOG].
  destruct (flatten_window_missing learners curr_idx (end_of learners chunk_size curr_idx))
    as (key & Hkey & Hflat); [lia | lia | lia | |].
  - intros Hall. rewrite Forall_lookup in Hall.
    assert (Hwf : well_formed learner).
    { apply (Hall (Z.to_nat (idx - curr_idx))).
      rewrite lookup_take_lt by lia. rewrite lookup_drop, <- Hlearner. f_equal. lia. }
    destruct Hwf as [[? ?] [? ?]]. destruct Hmissing; congruence.
  - rewrite Hflat. exists key. eexists. split; [done |]. done.
Qed.
End Ceiling.

(** C9: the flattening of a window of learners that have both required
    fields is the concatenation, learner by learner in input order, of
    each learner's values; and a learner's values are the text of its [id],
    then of its [original_username], then of its [ecommerce_segment_id]
    when that key is present, and only the first two, with no error, when
    it is absent. *)
Theorem flattening_emits_declared_fields learners start_idx end_idx :
  0 <= start_idx -> start_idx <= end_idx + 1 -> end_idx < Z.of_nat (length learners) ->
  Forall well_formed
    (take (Z.to_nat (end_idx + 1 - start_idx)) (drop (Z.to_nat start_idx) learners)) ->
  flatten_window learners start_idx end_idx =
    Returned (take (Z.to_nat (end_idx + 1 - start_idx)) (drop (Z.to_nat start_idx) learners)
                ≫= learner_values)
  /\ forall learner : gmap string pyobj,
      well_formed learner ->
      exists i u,
        learner !! "id" = Some i /\ learner !! "original_username" = Some u /\
        learner_values learner =
          match learner !! "ecommerce_segment_id" with
          | Some e => [text_type i; text_type u; text_type e]
          | None => [text_type i; text_type u]
          end.
Proof.
  intros Hs Hse He Hwf. split.
  - by apply flatten_window_ok.
  - intros learner [[i Hi] [u Hu]]. exists i, u. split; [done |]. split; [done |].
    unfold learner_values. rewrite Hi, Hu. by destruct (learner !! "ecommerce_segment_id").
Qed.

Lemma retry_loop_blind {A : Type} (watched giveup : exn -> bool) (target : M A) :
  log_blind target ->
  forall more tries, log_blind (retry_loop watched giveup target more tries).
Proof.
  intros Htarget more. induction more as [| more IH]; intros tries w w0 Hlog.
  - destruct (Htarget w w0 Hlog) as [Hfst Hsnd].
    destruct (target w) as [[a | e] w'] eqn:Hw; destruct (target w0) as [[a0 | e0] w0'] eqn:Hw0;
      cbn in Hfst, Hsnd; try discriminate; injection Hfst as ->.
    + by rewrite (retry_loop_returned _ _ _ _ _ _ _ _ Hw), (retry_loop_returned _ _ _ _ _ _ _ _ Hw0).
    + by rewrite (retry_loop_last _ _ _ _ _ _ _ Hw), (retry_loop_last _ _ _ _ _ _ _ Hw0).
  - destruct (Htarget w w0 Hlog) as [Hfst Hsnd].
    destruct (target w) as [[a | e] w'] eqn:Hw; destruct (target w0) as [[a0 | e0] w0'] eqn:Hw0;
      cbn in Hfst, Hsnd; try discriminate; injection Hfst as ->.
    + by rewrite (retry_loop_returned _ _ _ _ _ _ _ _ Hw), (retry_loop_returned _ _ _ _ _ _ _ _ Hw0).
    + destruct (watched e) eqn:Hwatched.
      * destruct (giveup e) eqn:Hgiveup.
        -- by rewrite (retry_loop_giveup _ _ _ _ _ _ _ _ Hw Hgiveup),
             (retry_loop_giveup _ _ _ _ _ _ _ _ Hw0 Hgiveup).
        -- rewrite (retry_loop_again _ _ _ _ _ _ _ _ Hw Hwatched Hgiveup),
             (retry_loop_again _ _ _ _ _ _ _ _ Hw0 Hwatched Hgiveup).
           apply IH. by rewrite !backoff_handler_http_log.
      * by rewrite (retry_loop_unwatched _ _ _ _ _ _ _ _ Hw Hwatched),
          (retry_loop_unwatched _ _ _ _ _ _ _ _ Hw0 Hwatched).
Qed.

Section Submission.
Context (server : list request -> request -> reply) (self : SegmentApi).

Lemma send_checked_blind req : log_blind (send_checked server req).
Proof.
  intros w w0 Hlog. unfold send_checked, bind, requests_send, raise_for_status. rewrite Hlog.
  destruct (server (http_log w) req) as [resp | |]; try done.
  by destruct (_ && _).
Qed.

Lemma retry_segment_api_blind req : log_blind (_retry_segment_api (send_checked server req)).
Proof.
  unfold _retry_segment_api, on_exception.
  do 3 apply retry_loop_blind. apply send_checked_blind.
Qed.

(** The call after [j] retryable errors and a reply that is no error. *)
Lemma call_after_errors req w (j : nat) resp :
  (j < 4)%nat ->
  (forall i, (i < j)%nat -> exists resp_i,
      server (http_log w ++ repeat req i) req = Reply resp_i /\ retryable resp_i) ->
  server (http_log w ++ repeat req j) req = Reply resp ->
  is_error_status resp = false ->
  exists w',
    _retry_segment_api (send_checked server req) w = (Returned resp, w') /\
    http_log w' = http_log w ++ repeat req (j + 1).
Proof.
  intros Hj Hscript Hreply Hok.
  rewrite retry_segment_api_http_layer. unfold http_layer, on_exception.
  destruct (http_layer_after_errors server req j (MAX_TRIES - 1) 1 w) as (w_j & Hlog & ->).
  { unfold MAX_TRIES. lia. }
  { exact Hscript. }
  rewrite <- Hlog in Hreply.
  pose proof (timeout_layer_reply server req w_j resp Hreply) as Ht. rewrite Hok in Ht.
  exists (sent req w_j). split.
  - by apply retry_loop_returned.
  - cbn. rewrite Hlog, repeat_app, app_assoc. done.
Qed.

Lemma submit_window_queued params w resp resp_json id w1 :
  _call_segment_post server self (BULK_DELETE_URL (workspace_slug self)) params w
    = (Returned resp, w1) ->
  json resp = Some resp_json ->
  subscript resp_json "regulate_id" = Returned id ->
  submit_window server self params w =
    ((Returned tt, resp_json),
     logged (DeletionQueued ("Bulk user deletion queued. Id: " +:+ text_type id)) w1).
Proof. intros Hcall Hjson Hid. unfold submit_window. by rewrite Hcall, Hjson, Hid. Qed.

(** C7, amended: when the submission of the last window receives [j] < 4
    retryable error responses (a 500, say) and then a 200 response whose
    body has a [regulate_id], the submission succeeds after [j + 1]
    requests; [delete_learners] logs the id of that final response and
    returns [None], not the id. *)
Theorem retried_submission_succeeds fuel learners chunk_size curr_idx w vals (j : nat)
    resp resp_json id :
  let req := post_request self (BULK_DELETE_URL (workspace_slug self))
               (bulk_delete_params vals) in
  1 <= chunk_size ->
  0 <= curr_idx < Z.of_nat (length learners) ->
  Z.of_nat (length learners) <= curr_idx + chunk_size ->
  flatten_window learners curr_idx (end_of learners chunk_size curr_idx) = Returned vals ->
  (length vals < 5000)%nat ->
  (j < 4)%nat ->
  (forall i, (i < j)%nat -> exists resp_i,
      server (http_log w ++ repeat req i) req = Reply resp_i /\
      (status_code resp_i = 429 \/ 500 <= status_code resp_i < 600)) ->
  server (http_log w ++ repeat req j) req = Reply resp ->
  status_code resp = 200 ->
  json resp = Some resp_json ->
  subscript resp_json "regulate_id" = Returned id ->
  exists w' events,
    delete_learners server (S fuel) self learners chunk_size curr_idx w =
      (Finished (Returned PyNone), w') /\
    http_log w' = http_log w ++ repeat req (j + 1) /\
    log w' = events ++ [DeletionQueued ("Bulk user deletion queued. Id: " +:+ text_type id)].
Proof.
  intros req Hc Hcurr Hlast Hflat Hlen Hj Hscript Hreply Hstatus Hjson Hid.
  pose proof (end_of_bounds learners chunk_size curr_idx Hc Hcurr) as Hend.
  destruct (window_pass_flattened server self _ _ _ _ w Hflat (proj1 Hend))
    as (id0 & name0 & id1 & name1 & Hpass).
  set (w0 := logged _ w) in Hpass.
  destruct (call_after_errors req w0 j resp Hj Hscript Hreply) as (w1 & Hcall & Hlog).
  { unfold is_error_status. by rewrite Hstatus. }
  unfold delete_learners. cbn [window_loop].
  replace (curr_idx <? Z.of_nat (length learners)) with true by (symmetry; apply Z.ltb_lt; lia).
  rewrite Hpass, check_and_submit_below by done.
  rewrite (submit_window_queued _ _ _ _ _ _ Hcall Hjson Hid).
  destruct fuel; cbn [window_loop];
    (replace (curr_idx + chunk_size <? Z.of_nat (length learners)) with false
       by (symmetry; apply Z.ltb_ge; lia));
    eexists _, _; (split; [done |]); by split.
Qed.

(** C6, amended: when the submission of a window fails, by an HTTP error
    that [_call_segment_post] raises (given up on or after the last try),
    by a response that does not decode, or by a decoded response without
    [regulate_id], [delete_learners] raises an [Exception] whose message
    holds the window's start and end indices followed by the text of
    [resp_json] at that point: empty for the HTTP error, the response's
    text for the decode failure, the decoded body as text for the missing
    field.  Nothing is sent after the failed call. *)
Theorem failed_submission_is_wrapped fuel learners chunk_size curr_idx w vals content :
  let call := _call_segment_post server self (BULK_DELETE_URL (workspace_slug self))
                (bulk_delete_params vals) w in
  1 <= chunk_size ->
  0 <= curr_idx < Z.of_nat (length learners) ->
  flatten_window learners curr_idx (end_of learners chunk_size curr_idx) = Returned vals ->
  (length vals < 5000)%nat ->
  (exists resp, fst call = Raised (HTTPError resp) /\ content = PyStr "")
  \/ (exists resp, fst call = Returned resp /\ json resp = None /\ content = PyStr (text resp))
  \/ (exists resp e, fst call = Returned resp /\ json resp = Some content /\
                     subscript content "regulate_id" = Raised e) ->
  exists w',
    delete_learners server (S fuel) self learners chunk_size curr_idx w =
      (Finished (Raised (Exception
         ("Error was encountered for learners between start/end indices ("
            +:+ str_int curr_idx +:+ ", " +:+ str_int (end_of learners chunk_size curr_idx)
            +:+ ") : " +:+ text_type content))), w') /\
    http_log w' = http_log (snd call).
Proof.
  intros call Hc Hcurr Hflat Hlen Hfail.
  pose proof (end_of_bounds learners chunk_size curr_idx Hc Hcurr) as Hend.
  destruct (window_pass_flattened server self _ _ _ _ w Hflat (proj1 Hend))
    as (id0 & name0 & id1 & name1 & Hpass).
  set (w0 := logged _ w) in Hpass.
  destruct (retry_segment_api_blind
              (post_request self (BULK_DELETE_URL (workspace_slug self)) (bulk_delete_params vals))
              w w0 eq_refl) as [Hfst Hsnd].
  fold (_call_segment_post server self (BULK_DELETE_URL (workspace_slug self))
          (bulk_delete_params vals)) in Hfst, Hsnd.
  fold call in Hfst, Hsnd.
  unfold delete_learners. cbn [window_loop].
  replace (curr_idx <? Z.of_nat (length learners)) with true by (symmetry; apply Z.ltb_lt; lia).
  rewrite Hpass, check_and_submit_below by done.
  unfold submit_window.
  destruct (_call_segment_post _ _ _ _ w0) as [o w1]. cbn [fst snd] in Hfst, Hsnd.
  rewrite <- Hsnd.
  destruct Hfail as [(resp & Hcall & ->) | [(resp & Hcall & Hjson & ->) | (resp & e & Hcall & Hjson & Hsub)]];
    rewrite Hcall in Hfst; subst o.
  - eexists. split; [done |]. done.
  - rewrite Hjson. eexists. split; [done |]. done.
  - rewrite Hjson, Hsub.
    assert (Hcaught : caught_by_delete_learners e = true).
    { unfold subscript in Hsub. destruct content; try by injection Hsub as <-.
      destruct (assoc_get kvs "regulate_id"); [done | by injection Hsub as <-]. }
    rewrite Hcaught. eexists. split; [done |]. done.
Qed.

(** C4, amended: when the status call returns a response that decodes,
    [get_bulk_delete_status] logs the decoded body as text and returns
    [None]. *)
Theorem status_is_logged_not_returned bulk_delete_id w resp resp_json w1 :
  _call_segment_get server self (BULK_DELETE_STATUS_URL (workspace_slug self) bulk_delete_id) w
    = (Returned resp, w1) ->
  json resp = Some resp_json ->
  get_bulk_delete_status server self bulk_delete_id w =
    (Returned PyNone, logged (StatusLogged (text_type resp_json)) w1).
Proof.
  intros Hcall Hjson. unfold get_bulk_delete_status, bind. by rewrite Hcall, Hjson.
Qed.
End Submission.

(** ** Windows *)

Lemma num_windows_spec (c n k : nat) :
  (1 <= c)%nat -> (k < num_windows c n)%nat <-> (k * c < n)%nat.
Proof.
  intros Hc. unfold num_windows. split.
  - intros Hk. destruct (Nat.lt_ge_cases (k * c) n) as [| Hge]; [done |].
    assert ((n + c - 1) / c < S k)%nat; [| lia].
    apply Nat.Div0.div_lt_upper_bound. lia.
  - intros Hk. assert (S k <= (n + c - 1) / c)%nat; [| lia].
    apply Nat.div_le_lower_bound; lia.
Qed.

Lemma window_length (c : nat) (learners : list (gmap string pyobj)) (k : nat) :
  length (window c learners k) = (c `min` (length learners - k * c))%nat.
Proof. unfold window. by rewrite length_take, length_drop. Qed.

Lemma windows_concat (c : nat) (learners : list (gmap string pyobj)) :
  (1 <= c)%nat ->
  forall n k, (k + n = num_windows c (length learners))%nat ->
    concat (window c learners <$> seq k n) = drop (k * c) learners.
Proof.
  intros Hc n. induction n as [| n IH]; intros k Hk.
  - cbn. symmetry. apply drop_ge.
    destruct (Nat.le_gt_cases (length learners) (k * c)) as [| Hlt]; [done |].
    apply (num_windows_spec c _ k Hc) in Hlt. lia.
  - cbn [seq fmap list_fmap concat]. rewrite (IH (S k)) by lia.
    unfold window. replace (S k * c)%nat with (k * c + c)%nat by lia.
    rewrite <- drop_drop. apply take_drop.
Qed.

(** The records between a window's first and last index. *)
Lemma window_records (c : nat) (learners : list (gmap string pyobj)) (k : nat) :
  (1 <= c)%nat -> (k * c < length learners)%nat ->
  let curr_idx := Z.of_nat (k * c) in
  take (Z.to_nat (end_of learners (Z.of_nat c) curr_idx + 1 - curr_idx))
       (drop (Z.to_nat curr_idx) learners) = window c learners k.
Proof.
  intros Hc Hk curr_idx. unfold window, end_of. subst curr_idx.
  rewrite Nat2Z.id.
  destruct (Z.le_gt_cases (Z.of_nat (k * c) + Z.of_nat c - 1) (Z.of_nat (length learners) - 1)).
  - rewrite Z.min_l by done. f_equal. lia.
  - rewrite Z.min_r by lia. rewrite !take_ge; [done | |]; rewrite length_drop; lia.
Qed.

Section Partition.
Context (server : list request -> request -> reply) (self : SegmentApi).

Lemma window_pass_accepted (c : nat) learners (k : nat) w :
  (1 <= c)%nat -> (k * c < length learners)%nat ->
  Forall well_formed (window c learners k) ->
  (length (window c learners k ≫= learner_values) < MAXIMUM_USERS_IN_DELETE_REQUEST)%nat ->
  accepted (server (http_log w) (window_request self (window c learners k))) ->
  exists w',
    window_pass server self learners (Z.of_nat c) (Z.of_nat (k * c)) w = (Returned Continue, w') /\
    http_log w' = http_log w ++ [window_request self (window c learners k)].
Proof.
  intros Hc Hk Hwf Hlen (resp & resp_json & id & Hreply & Hstatus & Hjson & Hid).
  pose proof (window_records c learners k Hc Hk) as Hrec. cbn zeta in Hrec.
  pose proof (end_of_bounds learners (Z.of_nat c) (Z.of_nat (k * c))) as Hend.
  assert (Hflat : flatten_window learners (Z.of_nat (k * c))
                    (end_of learners (Z.of_nat c) (Z.of_nat (k * c)))
                  = Returned (window c learners k ≫= learner_values)).
  { rewrite <- Hrec. apply flatten_window_ok; try lia. by rewrite Hrec. }
  destruct (window_pass_flattened server self _ _ _ _ w Hflat)
    as (id0 & name0 & id1 & name1 & Hpass); [lia |].
  set (w0 := logged _ w) in Hpass.
  destruct (call_after_errors server
              (window_request self (window c learners k)) w0 0 resp) as (w1 & Hcall & Hlog).
  - lia.
  - intros i Hi. lia.
  - cbn. by rewrite app_nil_r.
  - unfold is_error_status.
    destruct (Z.leb_spec 400 (status_code resp)), (Z.ltb_spec (status_code resp) 600);
      try done. destruct Hstatus. lia.
  - rewrite Hpass, check_and_submit_below by done.
    rewrite (submit_window_queued server self _ _ _ _ _ _ Hcall Hjson Hid).
    eexists. split; [done |]. done.
Qed.

Lemma window_loop_accepted (c : nat) learners :
  (1 <= c)%nat ->
  Forall well_formed learners ->
  (forall k, (k < num_windows c (length learners))%nat ->
             (length (window c learners k ≫= learner_values) < 5000)%nat) ->
  (forall h req, accepted (server h req)) ->
  forall n k fuel w,
    (n <= fuel)%nat -> (k + n = num_windows c (length learners))%nat ->
    exists w',
      window_loop server fuel self learners (Z.of_nat c) (Z.of_nat (k * c)) w =
        (Finished (Returned PyNone), w') /\
      http_log w' = http_log w ++ (window_request self <$> (window c learners <$> seq k n)).
Proof.
  intros Hc Hwf Hlen Hserver n.
  induction n as [| n IH]; intros k fuel w Hfuel Hk.
  - exists w. rewrite app_nil_r. split; [| done].
    assert (~ (k * c < length learners)%nat) by (rewrite <- (num_windows_spec c _ k Hc); lia).
    destruct fuel; cbn [window_loop];
      by (replace (_ <? _) with false by (symmetry; apply Z.ltb_ge; lia)).
  - destruct fuel as [| fuel]; [lia |].
    assert (Hlt : (k * c < length learners)%nat) by (rewrite <- (num_windows_spec c _ k Hc); lia).
    cbn [window_loop].
    replace (_ <? _) with true by (symmetry; apply Z.ltb_lt; lia).
    destruct (window_pass_accepted c learners k w Hc Hlt) as (w1 & -> & Hlog1).
    + unfold window. by apply Forall_take, Forall_drop.
    + apply Hlen. lia.
    + apply Hserver.
    + replace (Z.of_nat (k * c) + Z.of_nat c) with (Z.of_nat (S k * c)) by lia.
      destruct (IH (S k) fuel w1) as (w' & -> & Hlog'); [lia | lia |].
      exists w'. split; [done |].
      rewrite Hlog', Hlog1, <- app_assoc. done.
Qed.

(** C1: for [N] well-formed learners, a chunk size [c] > 0 and start
    index 0, when every window stays below the ceiling and the server
    accepts every request, [delete_learners] returns after sending exactly
    [num_windows c N] = ceil(N/c) requests, the [k]-th carrying the
    flattened values of the records [k*c .. k*c + c - 1], in input order.
    The windows are consecutive, of [c] records except possibly the last,
    and together they are the input list. *)
Theorem delete_learners_partitions (c : nat) learners w fuel :
  (1 <= c)%nat ->
  Forall well_formed learners ->
  (forall k, (k < num_windows c (length learners))%nat ->
             (length (window c learners k ≫= learner_values) < 5000)%nat) ->
  (forall h req, accepted (server h req)) ->
  (num_windows c (length learners) <= fuel)%nat ->
  let windows := window c learners <$> seq 0 (num_windows c (length learners)) in
  (exists w',
      delete_learners server fuel self learners (Z.of_nat c) 0 w =
        (Finished (Returned PyNone), w') /\
      http_log w' = http_log w ++ (window_request self <$> windows))
  /\ length windows = num_windows c (length learners)
  /\ concat windows = learners
  /\ (forall k ls, windows !! k = Some ls ->
        length ls = (c `min` (length learners - k * c))%nat).
Proof.
  intros Hc Hwf Hlen Hserver Hfuel windows. repeat split.
  - apply (window_loop_accepted c learners Hc Hwf Hlen Hserver _ 0%nat fuel w Hfuel). lia.
  - unfold windows. by rewrite length_fmap, length_seq.
  - unfold windows. by rewrite (windows_concat c learners Hc _ 0%nat).
  - intros k ls Hls. unfold windows in Hls. rewrite list_lookup_fmap in Hls.
    destruct (seq 0 _ !! k) as [k' |] eqn:Hk; [| done].
    apply lookup_seq in Hk as [-> _]. injection Hls as <-. apply window_length.
Qed.
End Partition.

(** ** Termination of the window loop *)

Lemma getitem_is_Some {A : Type} (xs : list A) (i : Z) :
  - Z.of_nat (length xs) <= i < Z.of_nat (length xs) -> is_Some (getitem xs i).
Proof.
  intros Hi. unfold getitem.
  destruct (Z.leb_spec 0 i).
  - replace (i <? Z.of_nat (length xs)) with true by (symmetry; apply Z.ltb_lt; lia).
    cbn. apply lookup_lt_is_Some_2. lia.
  - cbn. replace (- Z.of_nat (length xs) <=? i) with true by (symmetry; apply Z.leb_le; lia).
    replace (i <? 0) with true by (symmetry; apply Z.ltb_lt; lia).
    cbn. apply lookup_lt_is_Some_2. lia.
Qed.

Lemma getitem_elem_of {A : Type} (xs : list A) (i : Z) (x : A) :
  getitem xs i = Some x -> x ∈ xs.
Proof.
  unfold getitem. destruct (_ && _).
  - apply list_elem_of_lookup_2.
  - destruct (_ && _); [apply list_elem_of_lookup_2 | done].
Qed.

Lemma learner_field_valid (learners : list (gmap string pyobj)) idx key :
  - Z.of_nat (length learners) <= idx < Z.of_nat (length learners) ->
  Forall well_formed learners ->
  key ∈ REQUIRED_IDENTIFYING_KEYS ->
  exists v, learner_field learners idx key = Returned v.
Proof.
  intros Hidx Hwf Hkey. unfold learner_field.
  destruct (getitem_is_Some learners idx Hidx) as [learner Hget]. rewrite Hget. cbn.
  rewrite Forall_forall in Hwf.
  destruct (Hwf learner (getitem_elem_of _ _ _ Hget)) as [[i Hi] [u Hu]].
  unfold REQUIRED_IDENTIFYING_KEYS in Hkey.
  apply elem_of_cons in Hkey as [-> | Hkey]; [rewrite Hi; cbn; eauto |].
  apply elem_of_cons in Hkey as [-> | Hkey]; [rewrite Hu; cbn; eauto |].
  by apply elem_of_nil in Hkey.
Qed.

Section Termination.
Context (server : list request -> request -> reply) (self : SegmentApi).

Lemma window_loop_done fuel learners chunk_size curr_idx w :
  Z.of_nat (length learners) <= curr_idx ->
  window_loop server fuel self learners chunk_size curr_idx w = (Finished (Returned PyNone), w).
Proof.
  intros H. destruct fuel; cbn [window_loop];
    by (replace (_ <? _) with false by (symmetry; apply Z.ltb_ge; lia)).
Qed.

Lemma window_loop_step fuel learners chunk_size curr_idx w w1 :
  curr_idx < Z.of_nat (length learners) ->
  window_pass server self learners chunk_size curr_idx w = (Returned Continue, w1) ->
  window_loop server (S fuel) self learners chunk_size curr_idx w =
  window_loop server fuel self learners chunk_size (curr_idx + chunk_size) w1.
Proof.
  intros Hlt Hpass. cbn [window_loop].
  replace (_ <? _) with true by (symmetry; apply Z.ltb_lt; lia). by rewrite Hpass.
Qed.

(** With a positive chunk size the loop ends within the passes that the
    distance to the end of the list allows. *)
Lemma window_loop_finishes learners chunk_size :
  1 <= chunk_size ->
  forall fuel curr_idx w,
    (Z.to_nat (Z.of_nat (length learners) - curr_idx) <= fuel)%nat ->
    exists o w', window_loop server fuel self learners chunk_size curr_idx w = (Finished o, w').
Proof.
  intros Hc fuel. induction fuel as [| fuel IH]; intros curr_idx w Hfuel.
  - rewrite window_loop_done by lia. eauto.
  - destruct (Z.le_gt_cases (Z.of_nat (length learners)) curr_idx) as [Hge | Hlt].
    + rewrite window_loop_done by lia. eauto.
    + cbn [window_loop]. replace (_ <? _) with true by (symmetry; apply Z.ltb_lt; lia).
      destruct (window_pass _ _ _ _ _ w) as [[[| v] | e] w1]; eauto.
      apply IH. lia.
Qed.

(** With a chunk size below one a window is empty: the pass cannot stop
    at the ceiling. *)
Lemma empty_window_never_returns learners chunk_size curr_idx w v w1 :
  chunk_size <= 0 ->
  window_pass server self learners chunk_size curr_idx w <> (Returned (Return v), w1).
Proof.
  intros Hc. unfold window_pass, bind, lift.
  destruct (learner_field learners curr_idx "id"); [| done].
  destruct (learner_field learners curr_idx "original_username"); [| done].
  destruct (learner_field learners _ "id"); [| done].
  destruct (learner_field learners _ "original_username"); [| done].
  cbn [LOG]. unfold flatten_window. rewrite py_range_empty by lia. cbn [for_each].
  rewrite check_and_submit_below by (cbn; unfold MAXIMUM_USERS_IN_DELETE_REQUEST; lia).
  destruct (submit_window _ _ _ _) as [[[[] | exc] resp_json] w2]; [done |].
  by destruct (caught_by_delete_learners exc).
Qed.

Lemma window_pass_continue_index learners chunk_size curr_idx w w1 :
  window_pass server self learners chunk_size curr_idx w = (Returned Continue, w1) ->
  - Z.of_nat (length learners) <= curr_idx.
Proof.
  intros Hpass. destruct (Z.le_gt_cases (- Z.of_nat (length learners)) curr_idx); [done |].
  unfold window_pass, bind, lift, learner_field in Hpass.
  rewrite getitem_below in Hpass by lia. done.
Qed.

Lemma window_loop_never_exits learners chunk_size :
  chunk_size <= 0 ->
  forall fuel curr_idx w v w',
    curr_idx < Z.of_nat (length learners) ->
    window_loop server fuel self learners chunk_size curr_idx w <> (Finished (Returned v), w').
Proof.
  intros Hc fuel. induction fuel as [| fuel IH]; intros curr_idx w v w' Hlt.
  - cbn [window_loop]. by replace (_ <? _) with true by (symmetry; apply Z.ltb_lt; lia).
  - cbn [window_loop]. replace (_ <? _) with true by (symmetry; apply Z.ltb_lt; lia).
    destruct (window_pass _ _ _ _ _ w) as [[[| v1] | e] w1] eqn:Hpass.
    + apply IH. lia.
    + by apply empty_window_never_returns in Hpass.
    + done.
Qed.

Lemma window_loop_negative_raises learners chunk_size :
  chunk_size < 0 ->
  forall fuel curr_idx w,
    curr_idx < Z.of_nat (length learners) ->
    (Z.to_nat (curr_idx + Z.of_nat (length learners) + 1) < fuel)%nat ->
    exists e w', window_loop server fuel self learners chunk_size curr_idx w
                 = (Finished (Raised e), w').
Proof.
  intros Hc fuel. induction fuel as [| fuel IH]; intros curr_idx w Hlt Hfuel; [lia |].
  cbn [window_loop]. replace (_ <? _) with true by (symmetry; apply Z.ltb_lt; lia).
  destruct (window_pass _ _ _ _ _ w) as [[[| v1] | e] w1] eqn:Hpass.
  - apply window_pass_continue_index in Hpass as Hidx. apply IH; lia.
  - apply empty_window_never_returns in Hpass; [done | lia].
  - eauto.
Qed.

Lemma window_loop_zero_runs learners curr_idx :
  0 <= curr_idx < Z.of_nat (length learners) ->
  Forall well_formed learners ->
  (forall h req, accepted (server h req)) ->
  forall fuel w, fst (window_loop server fuel self learners 0 curr_idx w) = StillRunning.
Proof.
  intros Hidx Hwf Hserver fuel. induction fuel as [| fuel IH]; intros w.
  - cbn [window_loop]. by replace (_ <? _) with true by (symmetry; apply Z.ltb_lt; lia).
  - assert (Hpass : exists w1, window_pass server self learners 0 curr_idx w
                               = (Returned Continue, w1)).
    { unfold window_pass, bind, lift.
      destruct (learner_field_valid learners curr_idx "id") as [id0 ->];
        [lia | done | apply id_required |].
      destruct (learner_field_valid learners curr_idx "original_username") as [name0 ->];
        [lia | done | apply original_username_required |].
      destruct (learner_field_valid learners
                  (Z.min (curr_idx + 0 - 1) (Z.of_nat (length learners) - 1)) "id")
        as [id1 ->]; [lia | done | apply id_required |].
      destruct (learner_field_valid learners
                  (Z.min (curr_idx + 0 - 1) (Z.of_nat (length learners) - 1)) "original_username")
        as [name1 ->]; [lia | done | apply original_username_required |].
      cbn [LOG]. unfold flatten_window. rewrite py_range_empty by lia. cbn [for_each].
      rewrite check_and_submit_below by (cbn; unfold MAXIMUM_USERS_IN_DELETE_REQUEST; lia).
      match goal with |- context [submit_window _ _ ?p ?w0] =>
        destruct (Hserver (http_log w0) (post_request self (BULK_DELETE_URL (workspace_slug self)) p))
          as (resp & resp_json & id & Hreply & Hstatus & Hjson & Hid);
        destruct (call_after_errors server
                    (post_request self (BULK_DELETE_URL (workspace_slug self)) p) w0 0 resp)
          as (w1 & Hcall & Hlog)
      end.
      - lia.
      - intros i Hi. lia.
      - cbn. by rewrite app_nil_r.
      - unfold is_error_status.
        destruct (Z.leb_spec 400 (status_code resp)), (Z.ltb_spec (status_code resp) 600);
          try done. destruct Hstatus. lia.
      - rewrite (submit_window_queued server self _ _ _ _ _ _ Hcall Hjson Hid). eauto. }
    destruct Hpass as [w1 Hpass].
    rewrite (window_loop_step _ _ _ _ _ _ (proj2 Hidx) Hpass).
    rewrite Z.add_0_r. apply IH.
Qed.

(** C10, amended: each completed pass advances [curr_idx] by exactly
    [chunk_size].  With [chunk_size] >= 1, or with [beginning_idx] at or
    past the end of the list, the run ends within as many passes as there
    are records from [beginning_idx] on.  With [chunk_size] <= 0 and
    [beginning_idx] before the end, the loop never leaves by its condition
    or by a return: with [chunk_size] = 0, well-formed learners and a
    server that accepts every request it runs forever, and with
    [chunk_size] < 0 it ends by an exception. *)
Theorem window_loop_termination learners chunk_size beginning_idx w :
  (forall fuel w1,
      beginning_idx < Z.of_nat (length learners) ->
      window_pass server self learners chunk_size beginning_idx w = (Returned Continue, w1) ->
      delete_learners server (S fuel) self learners chunk_size beginning_idx w =
      delete_learners server fuel self learners chunk_size (beginning_idx + chunk_size) w1)
  /\ (1 <= chunk_size \/ Z.of_nat (length learners) <= beginning_idx ->
      exists o w',
        delete_learners server (Z.to_nat (Z.of_nat (length learners) - beginning_idx))
          self learners chunk_size beginning_idx w = (Finished o, w'))
  /\ (chunk_size <= 0 -> beginning_idx < Z.of_nat (length learners) ->
      forall fuel v w',
        delete_learners server fuel self learners chunk_size beginning_idx w
          <> (Finished (Returned v), w'))
  /\ (chunk_size = 0 -> 0 <= beginning_idx < Z.of_nat (length learners) ->
      Forall well_formed learners -> (forall h req, accepted (server h req)) ->
      ~ terminates server self learners chunk_size beginning_idx w)
  /\ (chunk_size < 0 -> beginning_idx < Z.of_nat (length learners) ->
      exists fuel e w',
        delete_learners server fuel self learners chunk_size beginning_idx w
          = (Finished (Raised e), w')).
Proof.
  unfold delete_learners. repeat split.
  - intros fuel w1. apply window_loop_step.
  - intros [Hc | Hb].
    + by apply window_loop_finishes.
    + rewrite window_loop_done by done. eauto.
  - intros Hc Hb fuel v w'. by apply window_loop_never_exits.
  - intros -> Hb Hwf Hserver (fuel & o & w' & Hrun).
    pose proof (window_loop_zero_runs learners beginning_idx Hb Hwf Hserver fuel w) as Hstill.
    unfold delete_learners in Hrun. by rewrite Hrun in Hstill.
  - intros Hc Hb.
    exists (S (Z.to_nat (beginning_idx + Z.of_nat (length learners) + 1))).
    apply window_loop_negative_raises; [done | done | lia].
Qed.
End Termination.

(** * The properties on sample inputs *)

Lemma sample_learner_well_formed n : well_formed (sample_learner n).
Proof. split; eexists; reflexivity. Qed.

Lemma sample_learners_well_formed n : Forall well_formed (sample_learners n).
Proof. unfold sample_learners. apply Forall_fmap, Forall_forall. intros k _. apply sample_learner_well_formed. Qed.

Lemma accepting_server_accepts h req : accepted (accepting_server h req).
Proof.
  exists queued_response, (PyDict [("regulate_id", PyStr "1a2b")]), (PyStr "1a2b").
  repeat split; cbn; lia.
Qed.

(** C1 on 12 learners in chunks of 5: three requests, for the windows 0, 1
    and 2. *)
Lemma delete_learners_partitions_witness :
  exists w',
    delete_learners accepting_server 3 sample_api (sample_learners 12) 5 0 fresh_world
      = (Finished (Returned PyNone), w') /\
    http_log w' = window_request sample_api <$> (window 5 (sample_learners 12) <$> [0; 1; 2]%nat).
Proof.
  apply (delete_learners_partitions accepting_server sample_api 5 (sample_learners 12) fresh_world 3).
  - lia.
  - apply sample_learners_well_formed.
  - intros k Hk. assert (Hcases : k = 0%nat \/ k = 1%nat \/ k = 2%nat) by (vm_compute in Hk; lia).
    destruct Hcases as [-> | [-> | ->]]; vm_compute; lia.
  - apply accepting_server_accepts.
  - vm_compute. lia.
Defined.

Example twelve_learners_by_five :
  length <$> (window 5 (sample_learners 12) <$> seq 0 (num_windows 5 12)) = [5; 5; 2]%nat.
Proof. reflexivity. Qed.

Lemma sample_learners_length n : length (sample_learners n) = Z.to_nat n.
Proof. unfold sample_learners. rewrite length_fmap, py_range_length. f_equal. lia. Qed.

Lemma window_values_length (ls : list (gmap string pyobj)) :
  Forall well_formed ls -> (2 * length ls <= length (ls ≫= learner_values))%nat.
Proof.
  induction 1 as [| learner ls [[i Hi] [u Hu]] _ IH]; [done |].
  cbn [mbind list_bind]. rewrite length_app. unfold learner_values at 1. rewrite Hi, Hu.
  cbn. lia.
Qed.

(** 2500 well-formed learners in one window: 5000 values at least. *)
Lemma sample_window_at_ceiling :
  exists vals,
    flatten_window (sample_learners 2500) 0 (end_of (sample_learners 2500) 2500 0) = Returned vals /\
    (5000 <= length vals)%nat.
Proof.
  assert (Hlen : length (sample_learners 2500) = 2500%nat)
    by (rewrite sample_learners_length; reflexivity).
  assert (Hend : end_of (sample_learners 2500) 2500 0 = 2499)
    by (unfold end_of; rewrite Hlen; reflexivity).
  rewrite Hend. eexists. split.
  - apply flatten_window_ok; [lia | lia | rewrite Hlen; lia |].
    apply Forall_take, Forall_drop, sample_learners_well_formed.
  - etransitivity; [| apply window_values_length, Forall_take, Forall_drop,
                        sample_learners_well_formed].
    rewrite length_take, length_drop, Hlen. reflexivity.
Qed.

(** C2 on 2500 learners in one chunk: the run returns and sends nothing. *)
Lemma window_at_ceiling_not_submitted_witness :
  exists w',
    delete_learners accepting_server 1 sample_api (sample_learners 2500) 2500 0 fresh_world
      = (Finished (Returned PyNone), w') /\
    http_log w' = [].
Proof.
  destruct sample_window_at_ceiling as (vals & Hflat & Hlen).
  pose proof (proj2 (window_at_ceiling_not_submitted accepting_server sample_api)
                0%nat (sample_learners 2500) 2500 0 fresh_world vals Hflat Hlen) as H.
  destruct H as (w' & Hrun & Hhttp).
  exists w'. split; [exact Hrun | exact Hhttp].
Defined.

(** C3 fails on 2500 learners in one chunk: the run stops at the ceiling
    with nothing sent and hands the caller [None], which is also what
    the run over 12 learners in chunks of 5 hands back after its three
    requests.  The caller is told of no error. *)
Lemma ceiling_not_surfaced_counterexample :
  exists aborted succeeded,
    delete_learners accepting_server 1 sample_api (sample_learners 2500) 2500 0 fresh_world
      = (Finished (Returned PyNone), aborted) /\
    http_log aborted = [] /\
    delete_learners accepting_server 3 sample_api (sample_learners 12) 5 0 fresh_world
      = (Finished (Returned PyNone), succeeded) /\
    length (http_log succeeded) = 3%nat.
Proof.
  destruct sample_window_at_ceiling as (vals & Hflat & Hlen).
  destruct (ceiling_pass accepting_server sample_api (sample_learners 2500) 2500 0 vals
              fresh_world 0 Hflat Hlen) as (id0 & name0 & id1 & name1 & Hrun).
  eexists _, _. split; [exact Hrun |]. split; [reflexivity |].
  split; [vm_compute; reflexivity | reflexivity].
Qed.

(** C3, amended, on 2500 learners in one chunk: two log records, no
    request. *)
Lemma ceiling_reported_without_raising_witness :
  exists w' attempt n,
    delete_learners accepting_server 1 sample_api (sample_learners 2500) 2500 0 fresh_world
      = (Finished (Returned PyNone), w') /\
    log w' = [attempt; TooManyValues n] /\ http_log w' = [].
Proof.
  destruct sample_window_at_ceiling as (vals & Hflat & Hlen).
  pose proof (ceiling_reported_without_raising accepting_server sample_api
                0%nat (sample_learners 2500) 2500 0 fresh_world vals Hflat Hlen) as H.
  destruct H as (w' & attempt & Hrun & Hlog & _ & _ & Hhttp).
  exists w', attempt, (length vals).
  split; [exact Hrun |]. split; [exact Hlog | exact Hhttp].
Defined.

Ltac in_range := vm_compute; repeat split; first [reflexivity | discriminate | lia].

(** C5 on a server that answers 500, then 404: two requests, and the 404
    is raised. *)
Lemma http_error_retry_policy_witness :
  let call := _retry_segment_api (send_checked failing_server sample_request) fresh_world in
  fst call = Raised (HTTPError (unknown_workspace_response 404)) /\
  http_log (snd call) = [sample_request; sample_request].
Proof.
  intros call.
  pose proof (http_error_retry_policy failing_server sample_request fresh_world 1
                (unknown_workspace_response 404)) as H.
  fold call in H. destruct call as [res w'].
  apply H.
  - lia.
  - intros i Hi. assert (i = 0%nat) as -> by lia.
    exists (unknown_workspace_response 500). split; [reflexivity | right; cbn; lia].
  - reflexivity.
  - in_range.
  - left. cbn. lia.
Defined.

(** C6 fails on a 404: the message ends after the indices, and the text
    of the response is not in it. *)
Lemma wrapped_error_counterexample :
  exists w',
    delete_learners unknown_workspace_server 1 sample_api (sample_learners 1) 1 0 fresh_world =
      (Finished (Raised (Exception
         "Error was encountered for learners between start/end indices (0, 0) : ")), w') /\
    text (unknown_workspace_response 404) = "workspace edx is not known" /\
    String.index 0 (text (unknown_workspace_response 404))
      "Error was encountered for learners between start/end indices (0, 0) : " = None.
Proof. eexists. split; [vm_compute; reflexivity |]. split; reflexivity. Qed.

(** C6, amended, on a 404: one request, and the wrapped error. *)
Lemma failed_submission_is_wrapped_witness :
  exists w',
    delete_learners unknown_workspace_server 1 sample_api (sample_learners 1) 1 0 fresh_world =
      (Finished (Raised (Exception
         "Error was encountered for learners between start/end indices (0, 0) : ")), w') /\
    http_log w' = [sample_request].
Proof.
  apply (failed_submission_is_wrapped unknown_workspace_server sample_api 0%nat (sample_learners 1) 1 0 fresh_world
           (sample_learners 1 ≫= learner_values) (PyStr "")).
  - lia.
  - in_range.
  - reflexivity.
  - in_range.
  - left. exists (unknown_workspace_response 404). split; reflexivity.
Defined.

(** C7 fails after a 500 and a 200: the call hands back [None], not the id
    of the queued request. *)
Lemma regulate_id_not_returned_counterexample :
  subscript (PyDict [("regulate_id", PyStr "1a2b")]) "regulate_id" = Returned (PyStr "1a2b") /\
  fst (delete_learners recovering_server 1 sample_api (sample_learners 1) 1 0 fresh_world)
    = Finished (Returned PyNone) /\
  fst (delete_learners recovering_server 1 sample_api (sample_learners 1) 1 0 fresh_world)
    <> Finished (Returned (PyStr "1a2b")).
Proof.
  split; [reflexivity |].
  assert (H : fst (delete_learners recovering_server
                     1 sample_api (sample_learners 1) 1 0 fresh_world)
              = Finished (Returned PyNone)) by (vm_compute; reflexivity).
  split; [exact H |]. rewrite H. discriminate.
Qed.

(** C7, amended, after a 500 and a 200: two requests, the id logged. *)
Lemma retried_submission_succeeds_witness :
  exists w' events,
    delete_learners recovering_server 1 sample_api (sample_learners 1) 1 0 fresh_world =
      (Finished (Returned PyNone), w') /\
    http_log w' = [sample_request; sample_request] /\
    log w' = events ++ [DeletionQueued "Bulk user deletion queued. Id: 1a2b"].
Proof.
  apply (retried_submission_succeeds recovering_server sample_api 0%nat (sample_learners 1) 1 0 fresh_world
           (sample_learners 1 ≫= learner_values) 1 queued_response
           (PyDict [("regulate_id", PyStr "1a2b")]) (PyStr "1a2b")).
  - lia.
  - in_range.
  - in_range.
  - reflexivity.
  - in_range.
  - lia.
  - intros i Hi. assert (i = 0%nat) as -> by lia.
    exists (unknown_workspace_response 500). split; [reflexivity | right; cbn; lia].
  - reflexivity.
  - reflexivity.
  - reflexivity.
  - reflexivity.
Defined.

(** C8 where the second of three learners has no [original_username]. *)
Lemma missing_required_field_fails_witness :
  let learners := [sample_learner 0; {["id" := PyInt 1]}; sample_learner 2] in
  exists key w',
    key ∈ REQUIRED_IDENTIFYING_KEYS /\
    delete_learners accepting_server 1 sample_api learners 3 0 fresh_world =
      (Finished (Raised (KeyError key)), w') /\
    http_log w' = [].
Proof.
  intros learners.
  apply (missing_required_field_fails accepting_server sample_api 0%nat learners 3 0 fresh_world
           1 {["id" := PyInt 1]}).
  - lia.
  - in_range.
  - in_range.
  - reflexivity.
  - right. reflexivity.
Defined.

(** C9 on one learner with the optional field between two without. *)
Lemma flattening_emits_declared_fields_witness :
  let learners := [sample_learner 7;
                   <["ecommerce_segment_id" := PyStr "AM+7"]> (sample_learner 8);
                   sample_learner 9] in
  flatten_window learners 0 2 =
    Returned ["7"; "user7"; "8"; "user8"; "AM+7"; "9"; "user9"].
Proof.
  intros learners.
  apply (flattening_emits_declared_fields learners 0 2).
  - lia.
  - lia.
  - in_range.
  - repeat constructor; eexists; reflexivity.
Defined.

(** C4 fails on a status response that decodes: the call logs the decoded
    body and hands back [None]. *)
Lemma status_not_returned_counterexample :
  json status_response = Some status_body /\
  get_bulk_delete_status status_server sample_api (PyStr "1a2b") fresh_world =
    (Returned PyNone,
     mk_world [get_request sample_api (BULK_DELETE_STATUS_URL "edx" (PyStr "1a2b"))]
              [StatusLogged "{'overall_status': 'FINISHED'}"]) /\
  Returned PyNone <> Returned status_body.
Proof. split; [reflexivity |]. split; [vm_compute; reflexivity | discriminate]. Qed.

(** C4, amended, on a status response that decodes. *)
Lemma status_is_logged_not_returned_witness :
  exists w1,
    get_bulk_delete_status status_server sample_api (PyStr "1a2b") fresh_world =
      (Returned PyNone, logged (StatusLogged "{'overall_status': 'FINISHED'}") w1).
Proof.
  eexists.
  apply (status_is_logged_not_returned status_server sample_api (PyStr "1a2b") fresh_world status_response
           status_body).
  - vm_compute. reflexivity.
  - reflexivity.
Defined.

(** C10 fails for chunk size -1: the first pass reads [learners[-2]] of a
    one-element list, which raises [IndexError], and the run ends. *)
Lemma negative_chunk_size_counterexample :
  delete_learners accepting_server 1 sample_api (sample_learners 1) (-1) 0 fresh_world
    = (Finished (Raised IndexError), fresh_world) /\
  terminates accepting_server sample_api (sample_learners 1) (-1) 0 fresh_world /\
  ~ (1 <= -1 \/ Z.of_nat (length (sample_learners 1)) <= 0).
Proof.
  split; [reflexivity |]. split.
  - exists 1%nat, (Raised IndexError), fresh_world. reflexivity.
  - change (length (sample_learners 1)) with 1%nat. lia.
Qed.

(** C10, amended, for chunk sizes 5, 0 and -1. *)
Lemma window_loop_termination_witness :
  (exists o w', delete_learners accepting_server 12 sample_api (sample_learners 12) 5 0 fresh_world
                = (Finished o, w')) /\
  ~ terminates accepting_server sample_api (sample_learners 3) 0 0 fresh_world /\
  (exists fuel e w', delete_learners accepting_server fuel sample_api (sample_learners 3) (-1) 0
                       fresh_world = (Finished (Raised e), w')).
Proof.
  pose proof (window_loop_termination accepting_server sample_api (sample_learners 12) 5 0
                fresh_world) as (_ & Hpos & _).
  pose proof (window_loop_termination accepting_server sample_api (sample_learners 3) 0 0
                fresh_world) as (_ & _ & _ & Hzero & _).
  pose proof (window_loop_termination accepting_server sample_api (sample_learners 3) (-1) 0
                fresh_world) as (_ & _ & _ & _ & Hneg).
  split; [| split].
  - apply Hpos. left. lia.
  - apply Hzero; [reflexivity | in_range | apply sample_learners_well_formed
                  | apply accepting_server_accepts].
  - apply Hneg; [lia | in_range].
Defined.

(** * Further properties *)

(** ** Retrying, continued *)

Section RetryMore.
Context {A : Type} (watched giveup : exn -> bool) (target : M A).

(** After [k] failures that are watched and not given up on, the loop is
    at its try number [tries + k]. *)
Lemma retry_loop_after_failures (req : request) (e : exn) (k : nat) :
  watched e = true -> giveup e = false ->
  forall more tries w,
    (k <= more)%nat ->
    (forall i w_i, (i < k)%nat -> http_log w_i = http_log w ++ repeat req i ->
                   target w_i = (Raised e, sent req w_i)) ->
    exists w_k,
      http_log w_k = http_log w ++ repeat req k /\
      retry_loop watched giveup target more tries w =
      retry_loop watched giveup target (more - k) (tries + k) w_k.
Proof.
  intros Hwatched Hgiveup. induction k as [| k IH]; intros more tries w Hk Hfail.
  - exists w. cbn. by rewrite app_nil_r, Nat.sub_0_r, Nat.add_0_r.
  - destruct more as [| more]; [lia |].
    assert (H0 : target w = (Raised e, sent req w)).
    { apply (Hfail 0%nat); [lia |]. cbn. by rewrite app_nil_r. }
    rewrite (retry_loop_again _ _ _ _ _ _ _ _ H0 Hwatched Hgiveup).
    set (w1 := snd (_backoff_handler tries e (sent req w))).
    assert (Hw1 : http_log w1 = http_log w ++ [req])
      by (subst w1; by rewrite backoff_handler_http_log).
    destruct (IH more (S tries) w1) as (w_k & Hlog & Heq); [lia | |].
    + intros i w_i Hi Hw_i. apply (Hfail (S i)); [lia |].
      rewrite Hw_i, Hw1, <- app_assoc. done.
    + exists w_k. split.
      * rewrite Hlog, Hw1, <- app_assoc. done.
      * rewrite Heq. f_equal. lia.
Qed.

(** The wrapped function sends at most [more + 1] times what the target
    sends at most. *)
Lemma retry_loop_sends_bounded (req : request) (m : nat) :
  (forall w, exists n, (1 <= n <= m)%nat /\
     http_log (snd (target w)) = http_log w ++ repeat req n) ->
  forall more tries w, exists n, (1 <= n <= S more * m)%nat /\
    http_log (snd (retry_loop watched giveup target more tries w)) = http_log w ++ repeat req n.
Proof.
  intros Htarget more. induction more as [| more IH]; intros tries w.
  - destruct (Htarget w) as (n & Hn & Hlog). exists n. split; [lia |].
    destruct (target w) as [[a | e] w'] eqn:Hw.
    + by rewrite (retry_loop_returned _ _ _ _ _ _ _ _ Hw).
    + by rewrite (retry_loop_last _ _ _ _ _ _ _ Hw).
  - destruct (Htarget w) as (n & Hn & Hlog).
    destruct (target w) as [[a | e] w'] eqn:Hw.
    + exists n. split; [lia |]. by rewrite (retry_loop_returned _ _ _ _ _ _ _ _ Hw).
    + destruct (watched e) eqn:Hwatched.
      * destruct (giveup e) eqn:Hgiveup.
        -- exists n. split; [lia |]. by rewrite (retry_loop_giveup _ _ _ _ _ _ _ _ Hw Hgiveup).
        -- rewrite (retry_loop_again _ _ _ _ _ _ _ _ Hw Hwatched Hgiveup).
           destruct (IH (S tries) (snd (_backoff_handler tries e w'))) as (n' & Hn' & Hlog').
           exists (n + n')%nat. split; [lia |].
           rewrite Hlog', backoff_handler_http_log. cbn in Hlog. rewrite Hlog.
           by rewrite repeat_app, app_assoc.
      * exists n. split; [lia |]. by rewrite (retry_loop_unwatched _ _ _ _ _ _ _ _ Hw Hwatched).
Qed.

Lemma count_retries_app (evs1 evs2 : list log_event) :
  count_retries (evs1 ++ evs2) = (count_retries evs1 + count_retries evs2)%nat.
Proof.
  induction evs1 as [| ev evs1 IH]; [done |]. destruct ev; cbn; rewrite IH; lia.
Qed.

Lemma backoff_handler_retries tries e w :
  count_retries (log (snd (_backoff_handler tries e w))) = S (count_retries (log w)).
Proof. destruct e; cbn; rewrite ?count_retries_app; cbn; lia. Qed.

(** One request more than retry records: kept by the loop when the target
    keeps it. *)
Lemma retry_loop_balance :
  (forall w, (length (http_log (snd (target w))) + count_retries (log w) =
              length (http_log w) + count_retries (log (snd (target w))) + 1)%nat) ->
  forall more tries w,
    (length (http_log (snd (retry_loop watched giveup target more tries w)))
       + count_retries (log w) =
     length (http_log w)
       + count_retries (log (snd (retry_loop watched giveup target more tries w))) + 1)%nat.
Proof.
  intros Htarget more. induction more as [| more IH]; intros tries w.
  - pose proof (Htarget w) as H. destruct (target w) as [[a | e] w'] eqn:Hw.
    + by rewrite (retry_loop_returned _ _ _ _ _ _ _ _ Hw).
    + by rewrite (retry_loop_last _ _ _ _ _ _ _ Hw).
  - pose proof (Htarget w) as H. destruct (target w) as [[a | e] w'] eqn:Hw.
    + by rewrite (retry_loop_returned _ _ _ _ _ _ _ _ Hw).
    + destruct (watched e) eqn:Hwatched.
      * destruct (giveup e) eqn:Hgiveup.
        -- by rewrite (retry_loop_giveup _ _ _ _ _ _ _ _ Hw Hgiveup).
        -- rewrite (retry_loop_again _ _ _ _ _ _ _ _ Hw Hwatched Hgiveup).
           pose proof (IH (S tries) (snd (_backoff_handler tries e w'))) as H'.
           rewrite backoff_handler_http_log, backoff_handler_retries in H'.
           cbn [snd] in H. lia.
      * by rewrite (retry_loop_unwatched _ _ _ _ _ _ _ _ Hw Hwatched).
Qed.
End RetryMore.

Section CallsMore.
Context (server : list request -> request -> reply).

Lemma send_checked_timed_out req w :
  server (http_log w) req = TimedOut ->
  send_checked server req w = (Raised Timeout, sent req w).
Proof. intros H. unfold send_checked, bind, requests_send. by rewrite H. Qed.

Lemma send_checked_unreachable req w :
  server (http_log w) req = ConnectionFailed ->
  send_checked server req w = (Raised ConnectionError, sent req w).
Proof. intros H. unfold send_checked, bind, requests_send. by rewrite H. Qed.

Lemma send_checked_one req w :
  exists n, (1 <= n <= 1)%nat /\
    http_log (snd (send_checked server req w)) = http_log w ++ repeat req n.
Proof.
  exists 1%nat. split; [lia |].
  unfold send_checked, bind, requests_send, raise_for_status.
  destruct (server (http_log w) req) as [resp | |]; try done.
  by destruct (_ && _).
Qed.

Lemma send_checked_balance req w :
  (length (http_log (snd (send_checked server req w))) + count_retries (log w) =
   length (http_log w) + count_retries (log (snd (send_checked server req w))) + 1)%nat.
Proof.
  unfold send_checked, bind, requests_send, raise_for_status.
  destruct (server (http_log w) req) as [resp | |]; cbn; rewrite ?length_app; cbn; try lia.
  destruct (_ && _); cbn; rewrite ?length_app; cbn; lia.
Qed.

(** A reply that is no error ends the call at once. *)
Lemma call_replied req w resp :
  server (http_log w) req = Reply resp ->
  is_error_status resp = false ->
  _retry_segment_api (send_checked server req) w = (Returned resp, sent req w).
Proof.
  intros Hreply Hok. rewrite retry_segment_api_http_layer.
  unfold http_layer, on_exception. apply retry_loop_returned.
  rewrite (timeout_layer_reply server req w resp Hreply). by rewrite Hok.
Qed.

Lemma not_error_status resp :
  ~ (400 <= status_code resp < 600) -> is_error_status resp = false.
Proof.
  intros H. unfold is_error_status.
  destruct (Z.leb_spec 400 (status_code resp)), (Z.ltb_spec (status_code resp) 600);
    try done. destruct H. lia.
Qed.

(** After [k] < 4 timeouts, a reply that is no error ends the call. *)
Lemma call_after_timeouts req w (k : nat) resp :
  (k < 4)%nat ->
  (forall i, (i < k)%nat -> server (http_log w ++ repeat req i) req = TimedOut) ->
  server (http_log w ++ repeat req k) req = Reply resp ->
  ~ (400 <= status_code resp < 600) ->
  exists w',
    _retry_segment_api (send_checked server req) w = (Returned resp, w') /\
    http_log w' = http_log w ++ repeat req (k + 1).
Proof.
  intros Hk Hscript Hreply Hok.
  rewrite retry_segment_api_http_layer. unfold http_layer, timeout_layer, on_exception.
  destruct (retry_loop_after_failures is_Timeout never (send_checked server req) req Timeout k
              eq_refl eq_refl (MAX_TRIES - 1) 1 w) as (w_k & Hlog & Heq).
  { unfold MAX_TRIES. lia. }
  { intros i w_i Hi Hw_i. apply send_checked_timed_out. rewrite Hw_i. by apply Hscript. }
  exists (sent req w_k). split.
  - apply retry_loop_returned. rewrite Heq. apply retry_loop_returned.
    rewrite <- Hlog in Hreply. rewrite (send_checked_reply server req w_k resp Hreply).
    by rewrite (not_error_status resp Hok).
  - cbn. rewrite Hlog, repeat_app, app_assoc. done.
Qed.

(** Four timeouts in a row end the call with [Timeout]. *)
Lemma call_timed_out req w :
  (forall i, (i < 4)%nat -> server (http_log w ++ repeat req i) req = TimedOut) ->
  exists w',
    _retry_segment_api (send_checked server req) w = (Raised Timeout, w') /\
    http_log w' = http_log w ++ repeat req 4.
Proof.
  intros Hscript.
  rewrite retry_segment_api_http_layer. unfold http_layer, timeout_layer, on_exception.
  destruct (retry_loop_after_failures is_Timeout never (send_checked server req) req Timeout 3
              eq_refl eq_refl (MAX_TRIES - 1) 1 w) as (w_k & Hlog & Heq).
  { unfold MAX_TRIES. lia. }
  { intros i w_i Hi Hw_i. apply send_checked_timed_out. rewrite Hw_i. apply Hscript. lia. }
  exists (sent req w_k). split.
  - apply retry_loop_unwatched; [| done]. rewrite Heq.
    change (MAX_TRIES - 1 - 3)%nat with 0%nat. apply retry_loop_last.
    apply send_checked_timed_out. rewrite Hlog. apply Hscript. lia.
  - cbn. rewrite Hlog, <- app_assoc. done.
Qed.

(** X2: a call whose request times out is tried again, up to four tries.
    After [k] < 4 timeouts a response that is no error is returned, with
    [k + 1] requests sent; after four timeouts in a row the call raises
    [Timeout], with exactly four requests sent. *)
Theorem timed_out_call_is_retried req w :
  (forall (k : nat) resp,
      (k < 4)%nat ->
      (forall i, (i < k)%nat -> server (http_log w ++ repeat req i) req = TimedOut) ->
      server (http_log w ++ repeat req k) req = Reply resp ->
      ~ (400 <= status_code resp < 600) ->
      exists w',
        _retry_segment_api (send_checked server req) w = (Returned resp, w') /\
        http_log w' = http_log w ++ repeat req (k + 1))
  /\
  ((forall i, (i < 4)%nat -> server (http_log w ++ repeat req i) req = TimedOut) ->
   exists w',
     _retry_segment_api (send_checked server req) w = (Raised Timeout, w') /\
     http_log w' = http_log w ++ repeat req 4).
Proof.
  split.
  - intros k resp. apply call_after_timeouts.
  - apply call_timed_out.
Qed.

Lemma call_sends_bounded req w :
  exists n, (1 <= n <= 16)%nat /\
    http_log (snd (_retry_segment_api (send_checked server req) w)) = http_log w ++ repeat req n.
Proof.
  rewrite retry_segment_api_http_layer. unfold http_layer, on_exception.
  apply (retry_loop_sends_bounded is_HTTPError _http_status_giveup (timeout_layer server req)
           req 4 ltac:(intros w0; apply (retry_loop_sends_bounded is_Timeout never
                          (send_checked server req) req 1 (send_checked_one req) 3 1 w0))
           3 1 w).
Qed.

(** X4: one call logs exactly one "Trying again" record for every request
    it sends after the first. *)
Theorem every_retry_is_logged req w :
  let w' := snd (_retry_segment_api (send_checked server req) w) in
  (length (http_log w') - length (http_log w) =
   S (count_retries (log w') - count_retries (log w)))%nat
  /\ (count_retries (log w) <= count_retries (log w'))%nat.
Proof.
  cbv zeta. unfold _retry_segment_api, on_exception.
  pose proof (retry_loop_balance is_JSONDecodeError never _
                (retry_loop_balance is_HTTPError _http_status_giveup _
                   (retry_loop_balance is_Timeout never _ (send_checked_balance req)
                      (MAX_TRIES - 1) 1)
                   (MAX_TRIES - 1) 1)
                (MAX_TRIES - 1) 1 w) as H.
  pose proof (retry_segment_api_sends server req w) as (n & Hn & Hlog).
  unfold _retry_segment_api, on_exception in Hlog.
  apply (f_equal length) in Hlog. rewrite length_app, repeat_length in Hlog.
  lia.
Qed.

(** A server that cannot be reached ends the call at once. *)
Lemma call_unreachable req w :
  server (http_log w) req = ConnectionFailed ->
  _retry_segment_api (send_checked server req) w = (Raised ConnectionError, sent req w).
Proof.
  intros H. rewrite retry_segment_api_http_layer. unfold http_layer, timeout_layer, on_exception.
  apply retry_loop_unwatched; [| done]. apply retry_loop_unwatched; [| done].
  by apply send_checked_unreachable.
Qed.
End CallsMore.

(** X3: whatever the server does, one call of [_call_segment_post] or
    [_call_segment_get] sends the same request between 1 and 16 times: up
    to four tries of the HTTP layer, each of up to four tries of the
    timeout layer.  The bound is reached by a server that answers three
    timeouts and a 500, four times over. *)
Theorem call_sends_at_most_sixteen_requests :
  (forall server req w, exists n, (1 <= n <= 16)%nat /\
      http_log (snd (_retry_segment_api (send_checked server req) w)) =
        http_log w ++ repeat req n)
  /\ http_log (snd (_retry_segment_api (send_checked stubborn_server sample_request)
                      fresh_world)) = repeat sample_request 16.
Proof.
  split.
  - apply call_sends_bounded.
  - vm_compute. reflexivity.
Qed.

(** ** Passes and runs, continued *)

(** The records between the first and the last index of the window that
    starts at [i]. *)
Lemma records_between (c i : nat) (learners : list (gmap string pyobj)) :
  (1 <= c)%nat -> (i < length learners)%nat ->
  take (Z.to_nat (end_of learners (Z.of_nat c) (Z.of_nat i) + 1 - Z.of_nat i))
       (drop (Z.to_nat (Z.of_nat i)) learners) = take c (drop i learners).
Proof.
  intros Hc Hi. unfold end_of. rewrite Nat2Z.id.
  destruct (Z.le_gt_cases (Z.of_nat i + Z.of_nat c - 1) (Z.of_nat (length learners) - 1)).
  - rewrite Z.min_l by done. f_equal. lia.
  - rewrite Z.min_r by lia. rewrite !take_ge; [done | |]; rewrite length_drop; lia.
Qed.

Lemma learner_values_length_le (learner : gmap string pyobj) :
  (length (learner_values learner) <= 3)%nat.
Proof.
  unfold learner_values. rewrite length_fmap, !length_app.
  destruct (learner !! "id"), (learner !! "original_username"),
    (learner !! "ecommerce_segment_id"); cbn; lia.
Qed.

Lemma window_values_length_le (ls : list (gmap string pyobj)) :
  (length (ls ≫= learner_values) <= 3 * length ls)%nat.
Proof.
  induction ls as [| learner ls IH]; [done |].
  cbn [mbind list_bind]. rewrite length_app. cbn [length].
  pose proof (learner_values_length_le learner). lia.
Qed.

Lemma learner_values_count (learner : gmap string pyobj) :
  well_formed learner ->
  length (learner_values learner) = (2 + (if has_segment_id learner then 1 else 0))%nat.
Proof.
  intros [[i Hi] [u Hu]]. unfold learner_values, has_segment_id. rewrite Hi, Hu.
  by destruct (learner !! "ecommerce_segment_id").
Qed.

Lemma window_values_count (ls : list (gmap string pyobj)) :
  Forall well_formed ls ->
  length (ls ≫= learner_values) = (2 * length ls + length (List.filter has_segment_id ls))%nat.
Proof.
  induction 1 as [| learner ls Hwf _ IH]; [done |].
  cbn [mbind list_bind List.filter]. rewrite length_app, IH, (learner_values_count _ Hwf).
  destruct (has_segment_id learner); cbn [length]; lia.
Qed.

Section PassesMore.
Context (server : list request -> request -> reply) (self : SegmentApi).

(** What the end of a pass does with what the call gives. *)
Lemma check_and_submit_call start_idx end_idx vals w :
  (length vals < MAXIMUM_USERS_IN_DELETE_REQUEST)%nat ->
  check_and_submit server self start_idx end_idx vals w =
    let wrap exc resp_json w1 :=
      (Raised (Exception (error_message start_idx end_idx resp_json)) : outcome flow,
       logged (ErrorLogged (error_message start_idx end_idx resp_json))
         (logged (ExceptionLogged exc) w1)) in
    match _call_segment_post server self (BULK_DELETE_URL (workspace_slug self))
            (bulk_delete_params vals) w with
    | (Raised exc, w1) =>
        if caught_by_delete_learners exc then wrap exc (PyStr "") w1 else (Raised exc, w1)
    | (Returned resp, w1) =>
        match json resp with
        | None => wrap JSONDecodeError (PyStr (text resp)) w1
        | Some resp_json =>
            match subscript resp_json "regulate_id" with
            | Returned id =>
                (Returned Continue,
                 logged (DeletionQueued ("Bulk user deletion queued. Id: " +:+ text_type id)) w1)
            | Raised exc =>
                if caught_by_delete_learners exc then wrap exc resp_json w1 else (Raised exc, w1)
            end
        end
    end.
Proof.
  intros Hlen. rewrite check_and_submit_below by done. unfold submit_window. cbv zeta.
  destruct (_call_segment_post _ _ _ _ w) as [[resp | exc] w1].
  - destruct (json resp) as [resp_json |]; [| done].
    destruct (subscript resp_json "regulate_id") as [id | exc]; [done |].
    by destruct (caught_by_delete_learners exc).
  - by destruct (caught_by_delete_learners exc).
Qed.

(** The pass over well-formed records inside the list, up to the call. *)
Lemma window_pass_open (c i : nat) learners w :
  (1 <= c)%nat -> (i < length learners)%nat ->
  Forall well_formed (take c (drop i learners)) ->
  exists attempt,
    level_of attempt = INFO /\
    window_pass server self learners (Z.of_nat c) (Z.of_nat i) w =
    check_and_submit server self (Z.of_nat i) (end_of learners (Z.of_nat c) (Z.of_nat i))
      (take c (drop i learners) ≫= learner_values) (logged attempt w).
Proof.
  intros Hc Hi Hwf.
  pose proof (records_between c i learners Hc Hi) as Hrec.
  pose proof (end_of_bounds learners (Z.of_nat c) (Z.of_nat i)) as Hend.
  assert (Hflat : flatten_window learners (Z.of_nat i) (end_of learners (Z.of_nat c) (Z.of_nat i))
                  = Returned (take c (drop i learners) ≫= learner_values)).
  { rewrite <- Hrec. apply flatten_window_ok; try lia. by rewrite Hrec. }
  destruct (window_pass_flattened server self _ _ _ _ w Hflat)
    as (id0 & name0 & id1 & name1 & Hpass); [lia |].
  eexists. split; [| exact Hpass]. done.
Qed.

(** The pass over a window that goes through. *)
Lemma window_pass_queued (c i : nat) learners w :
  (1 <= c)%nat -> (i < length learners)%nat ->
  goes_through server self (take c (drop i learners)) ->
  exists w' attempt queued,
    window_pass server self learners (Z.of_nat c) (Z.of_nat i) w = (Returned Continue, w') /\
    http_log w' = http_log w ++ [window_request self (take c (drop i learners))] /\
    log w' = log w ++ [attempt; queued] /\
    level_of attempt = INFO /\ level_of queued = INFO.
Proof.
  intros Hc Hi (Hwf & Hlen & Hserver).
  destruct (window_pass_open c i learners w Hc Hi Hwf) as (attempt & Hinfo & Hpass).
  destruct (Hserver (http_log w)) as (resp & resp_json & id & Hreply & Hstatus & Hjson & Hid).
  rewrite Hpass, check_and_submit_call by done. cbv zeta.
  unfold _call_segment_post. unfold window_request in Hreply.
  rewrite (call_replied server _ (logged attempt w) resp Hreply (not_error_status _ Hstatus)).
  rewrite Hjson, Hid. eexists _, attempt, _. split; [done |].
  cbn. rewrite <- app_assoc. done.
Qed.

(** [j] windows that go through, from index [b] on: the loop is then at
    index [b + j * c], the [j] requests sent, two INFO records logged for
    each. *)
Lemma window_loop_prefix (c : nat) learners (j : nat) :
  (1 <= c)%nat ->
  forall (b fuel : nat) w,
    (forall k, (k < j)%nat ->
       (b + k * c < length learners)%nat /\
       goes_through server self (take c (drop (b + k * c) learners))) ->
    exists w' evs,
      window_loop server (j + fuel) self learners (Z.of_nat c) (Z.of_nat b) w =
      window_loop server fuel self learners (Z.of_nat c) (Z.of_nat (b + j * c)) w' /\
      http_log w' = http_log w ++
        ((fun k => window_request self (take c (drop (b + k * c) learners))) <$> seq 0 j) /\
      log w' = log w ++ evs /\
      Forall (fun ev => level_of ev = INFO) evs /\
      length evs = (2 * j)%nat.
Proof.
  intros Hc. induction j as [| j IH]; intros b fuel w Hgood.
  - exists w, []. cbn. rewrite !app_nil_r, Nat.add_0_r. repeat split; constructor.
  - destruct (Hgood 0%nat) as [Hb Hfirst]; [lia |].
    rewrite Nat.add_0_r in Hb, Hfirst.
    destruct (window_pass_queued c b learners w Hc Hb Hfirst)
      as (w1 & attempt & queued & Hpass & Hhttp1 & Hlog1 & Hinfo1 & Hinfo2).
    cbn [Nat.add]. rewrite (window_loop_step server self _ _ _ _ _ w1); [| lia | exact Hpass].
    replace (Z.of_nat b + Z.of_nat c) with (Z.of_nat (b + c)) by lia.
    destruct (IH (b + c)%nat fuel w1) as (w' & evs & Hrun & Hhttp & Hlog & Hinfo & Hlen).
    { intros k Hk. destruct (Hgood (S k)) as [Hlt Hgo]; [lia |].
      replace (b + c + k * c)%nat with (b + S k * c)%nat by lia. done. }
    exists w', ([attempt; queued] ++ evs). split; [| split; [| split; [| split]]].
    + rewrite Hrun. do 2 f_equal. lia.
    + rewrite Hhttp, Hhttp1, <- app_assoc. cbn [seq fmap list_fmap]. rewrite Nat.add_0_r.
      cbn [app]. do 2 f_equal. rewrite <- fmap_S_seq, <- list_fmap_compose.
      apply list_fmap_ext. intros _ k _. cbn. do 3 f_equal. lia.
    + rewrite Hlog, Hlog1, <- app_assoc. done.
    + apply Forall_app. split; [| done]. by repeat constructor.
    + cbn [length app]. rewrite Hlen. lia.
Qed.
End PassesMore.

Lemma window_of_drop (c b k : nat) (learners : list (gmap string pyobj)) :
  window c (drop b learners) k = take c (drop (b + k * c) learners).
Proof. unfold window. by rewrite drop_drop. Qed.

Lemma flatten_learner_grows learners idx a b :
  flatten_learner learners idx a = Returned b -> (length b <= length a + 3)%nat.
Proof.
  unfold flatten_learner, learner_field. cbn.
  destruct (getitem learners idx) as [learner |]; cbn; [| done].
  destruct (learner !! "id") as [i |]; cbn; [| done].
  destruct (learner !! "original_username") as [u |]; cbn; [| done].
  destruct (bool_decide (is_Some (learner !! "ecommerce_segment_id"))); cbn.
  - destruct (learner !! "ecommerce_segment_id"); cbn; [| done].
    intros [= <-]. rewrite !length_app. cbn. lia.
  - intros [= <-]. rewrite !length_app. cbn. lia.
Qed.

Lemma for_each_flatten_grows learners idxs :
  forall acc r, for_each idxs (flatten_learner learners) acc = Returned r ->
    (length r <= length acc + 3 * length idxs)%nat.
Proof.
  induction idxs as [| idx idxs IH]; intros acc r Hrun.
  - cbn in Hrun. injection Hrun as <-. lia.
  - cbn in Hrun. destruct (flatten_learner learners idx acc) as [acc' | e] eqn:Hone; [| done].
    apply flatten_learner_grows in Hone. apply IH in Hrun. cbn [length]. lia.
Qed.

Section RunsMore.
Context (server : list request -> request -> reply) (self : SegmentApi).

(** All windows from index [b] on go through: the run returns, one
    request sent and two INFO records logged for each window. *)
Lemma window_loop_through (c b : nat) learners w fuel :
  (1 <= c)%nat ->
  (forall k, (k < num_windows c (length learners - b))%nat ->
             goes_through server self (window c (drop b learners) k)) ->
  (num_windows c (length learners - b) <= fuel)%nat ->
  exists w' evs,
    window_loop server fuel self learners (Z.of_nat c) (Z.of_nat b) w =
      (Finished (Returned PyNone), w') /\
    http_log w' = http_log w ++
      (window_request self <$>
         (window c (drop b learners) <$> seq 0 (num_windows c (length learners - b)))) /\
    log w' = log w ++ evs /\
    Forall (fun ev => level_of ev = INFO) evs /\
    length evs = (2 * num_windows c (length learners - b))%nat.
Proof.
  intros Hc Hgood Hfuel.
  set (nw := num_windows c (length learners - b)) in *.
  destruct (window_loop_prefix server self c learners nw Hc b (fuel - nw) w)
    as (w' & evs & Hrun & Hhttp & Hlog & Hinfo & Hlen).
  { intros k Hk. split.
    - apply (num_windows_spec c _ k Hc) in Hk. lia.
    - rewrite <- window_of_drop. by apply Hgood. }
  exists w', evs. replace (nw + (fuel - nw))%nat with fuel in Hrun by lia.
  split; [| split; [| done]].
  - rewrite Hrun. apply window_loop_done.
    assert (~ (nw < num_windows c (length learners - b))%nat) as Hnot by (subst nw; lia).
    rewrite (num_windows_spec c _ nw Hc) in Hnot. lia.
  - rewrite Hhttp. f_equal. rewrite <- list_fmap_compose.
    apply list_fmap_ext. intros _ k _. cbn. by rewrite window_of_drop.
Qed.

Lemma goes_through_intro (records : list (gmap string pyobj)) :
  Forall well_formed records ->
  (length (records ≫= learner_values) < 5000)%nat ->
  (forall h req, accepted (server h req)) ->
  goes_through server self records.
Proof. intros Hwf Hlen Hserver. split; [done |]. split; [done |]. intros h. apply Hserver. Qed.

(** X8: a run from [beginning_idx] = [b] handles the learners from index
    [b] on and no others.  When those are well-formed, their windows stay
    below the ceiling and the server accepts, it sends ceil((N - b)/c)
    requests, one per window of [c] records of [learners[b:]], in order.
    The records before [b] need not even be well-formed. *)
Theorem delete_learners_starts_at_beginning_idx (c b : nat) learners w fuel :
  (1 <= c)%nat ->
  Forall well_formed (drop b learners) ->
  (forall k, (k < num_windows c (length learners - b))%nat ->
             (length (window c (drop b learners) k ≫= learner_values) < 5000)%nat) ->
  (forall h req, accepted (server h req)) ->
  (num_windows c (length learners - b) <= fuel)%nat ->
  exists w',
    delete_learners server fuel self learners (Z.of_nat c) (Z.of_nat b) w =
      (Finished (Returned PyNone), w') /\
    http_log w' = http_log w ++
      (window_request self <$>
         (window c (drop b learners) <$> seq 0 (num_windows c (length learners - b)))).
Proof.
  intros Hc Hwf Hlen Hserver Hfuel.
  destruct (window_loop_through c b learners w fuel Hc) as (w' & evs & Hrun & Hhttp & _);
    [| done | by exists w'].
  intros k Hk. apply goes_through_intro; [| by apply Hlen | done].
  unfold window. by apply Forall_take, Forall_drop.
Qed.

(** X12: with a chunk size of at most 1666 no window can reach the ceiling,
    whatever the learners: a learner gives at most three values.  So for
    well-formed learners and a server that accepts, a run with chunk size
    [c] in 1..1666 sends its ceil(N/c) requests without a ceiling
    hypothesis. *)
Theorem chunk_size_up_to_1666_stays_below_ceiling :
  (forall (learners : list (gmap string pyobj)) chunk_size curr_idx vals,
      chunk_size <= 1666 ->
      flatten_window learners curr_idx (end_of learners chunk_size curr_idx) = Returned vals ->
      (length vals < 5000)%nat)
  /\
  (forall (c : nat) learners w fuel,
      (1 <= c <= 1666)%nat ->
      Forall well_formed learners ->
      (forall h req, accepted (server h req)) ->
      (num_windows c (length learners) <= fuel)%nat ->
      exists w',
        delete_learners server fuel self learners (Z.of_nat c) 0 w =
          (Finished (Returned PyNone), w') /\
        http_log w' = http_log w ++
          (window_request self <$>
             (window c learners <$> seq 0 (num_windows c (length learners))))).
Proof.
  split.
  - intros learners chunk_size curr_idx vals Hc Hflat.
    apply for_each_flatten_grows in Hflat. rewrite py_range_length in Hflat.
    unfold end_of in Hflat. cbn [length] in Hflat. lia.
  - intros c learners w fuel Hc Hwf Hserver Hfuel.
    destruct (window_loop_through c 0 learners w fuel) as (w' & evs & Hrun & Hhttp & _).
    + lia.
    + intros k Hk. rewrite drop_0. apply goes_through_intro; [| | done].
      * unfold window. by apply Forall_take, Forall_drop.
      * pose proof (window_values_length_le (window c learners k)) as Hle.
        rewrite window_length in Hle. lia.
    + by rewrite Nat.sub_0_r.
    + rewrite Nat.sub_0_r, drop_0 in Hhttp. exists w'. split; [exact Hrun | exact Hhttp].
Qed.

(** X16: a run in which every window is accepted logs two records per
    window, all at level INFO: no ERROR record and no retry record. *)
Theorem accepted_run_logs_two_info_records_per_window (c : nat) learners w fuel :
  (1 <= c)%nat ->
  Forall well_formed learners ->
  (forall k, (k < num_windows c (length learners))%nat ->
             (length (window c learners k ≫= learner_values) < 5000)%nat) ->
  (forall h req, accepted (server h req)) ->
  (num_windows c (length learners) <= fuel)%nat ->
  exists evs,
    log (snd (delete_learners server fuel self learners (Z.of_nat c) 0 w)) = log w ++ evs /\
    Forall (fun ev => level_of ev = INFO) evs /\
    length evs = (2 * num_windows c (length learners))%nat /\
    count_retries evs = 0%nat.
Proof.
  intros Hc Hwf Hlen Hserver Hfuel.
  destruct (window_loop_through c 0 learners w fuel) as (w' & evs & Hrun & _ & Hlog & Hinfo & Hn).
  - lia.
  - intros k Hk. rewrite drop_0. rewrite Nat.sub_0_r in Hk.
    apply goes_through_intro; [| by apply Hlen | done].
    unfold window. by apply Forall_take, Forall_drop.
  - by rewrite Nat.sub_0_r.
  - rewrite Nat.sub_0_r in Hn. exists evs. unfold delete_learners. change 0 with (Z.of_nat 0).
    rewrite Hrun. split; [done |]. split; [done |]. split; [done |].
    clear -Hinfo. induction Hinfo as [| ev evs Hev _ IH]; [done |]. by destruct ev.
Qed.
End RunsMore.

Section Failures.
Context (server : list request -> request -> reply) (self : SegmentApi).

(** An HTTP error that is not retried ends the call at once. *)
Lemma call_given_up req w resp :
  server (http_log w) req = Reply resp ->
  400 <= status_code resp < 600 ->
  ~ retryable resp ->
  _retry_segment_api (send_checked server req) w = (Raised (HTTPError resp), sent req w).
Proof.
  intros Hreply Herror Hno. rewrite retry_segment_api_http_layer.
  unfold http_layer, on_exception. apply retry_loop_giveup.
  - rewrite (timeout_layer_reply server req w resp Hreply).
    replace (is_error_status resp) with true; [done |].
    symmetry. unfold is_error_status.
    apply andb_true_intro; split; [apply Z.leb_le | apply Z.ltb_lt]; lia.
  - by apply not_retryable_spec.
Qed.

(** The pass over a window with a record that lacks a required field. *)
Lemma window_pass_missing (c i : nat) learners w :
  (1 <= c)%nat -> (i < length learners)%nat ->
  ~ Forall well_formed (take c (drop i learners)) ->
  exists key w',
    key ∈ REQUIRED_IDENTIFYING_KEYS /\
    window_pass server self learners (Z.of_nat c) (Z.of_nat i) w = (Raised (KeyError key), w') /\
    http_log w' = http_log w.
Proof.
  intros Hc Hi Hbad.
  pose proof (records_between c i learners Hc Hi) as Hrec.
  pose proof (end_of_bounds learners (Z.of_nat c) (Z.of_nat i)) as Hend.
  unfold window_pass. fold (end_of learners (Z.of_nat c) (Z.of_nat i)). unfold bind, lift.
  assert (Hraise : forall key w0, key ∈ REQUIRED_IDENTIFYING_KEYS -> http_log w0 = http_log w ->
            exists key' w', key' ∈ REQUIRED_IDENTIFYING_KEYS /\
              (Raised (KeyError key) : outcome flow, w0) = (Raised (KeyError key'), w') /\
              http_log w' = http_log w) by eauto.
  assert (Hstart : 0 <= Z.of_nat i < Z.of_nat (length learners)) by lia.
  assert (Hlast : 0 <= end_of learners (Z.of_nat c) (Z.of_nat i) < Z.of_nat (length learners))
    by lia.
  destruct (learner_field_cases learners _ "id" Hstart) as [[id0 H0] | H0]; rewrite H0;
    [| by apply Hraise; [apply id_required |]].
  destruct (learner_field_cases learners _ "original_username" Hstart) as [[name0 H1] | H1];
    rewrite H1; [| by apply Hraise; [apply original_username_required |]].
  destruct (learner_field_cases learners _ "id" Hlast) as [[id1 H2] | H2]; rewrite H2;
    [| by apply Hraise; [apply id_required |]].
  destruct (learner_field_cases learners _ "original_username" Hlast) as [[name1 H3] | H3];
    rewrite H3; [| by apply Hraise; [apply original_username_required |]].
  cbn [LOG].
  destruct (flatten_window_missing learners (Z.of_nat i) (end_of learners (Z.of_nat c) (Z.of_nat i)))
    as (key & Hkey & Hflat); [lia | lia | lia | by rewrite Hrec |].
  rewrite Hflat. by apply Hraise.
Qed.

Lemma flatten_window_records (c i : nat) learners :
  (1 <= c)%nat -> (i < length learners)%nat ->
  Forall well_formed (take c (drop i learners)) ->
  flatten_window learners (Z.of_nat i) (end_of learners (Z.of_nat c) (Z.of_nat i)) =
    Returned (take c (drop i learners) ≫= learner_values).
Proof.
  intros Hc Hi Hwf.
  pose proof (records_between c i learners Hc Hi) as Hrec.
  pose proof (end_of_bounds learners (Z.of_nat c) (Z.of_nat i)) as Hend.
  rewrite <- Hrec. apply flatten_window_ok; try lia. by rewrite Hrec.
Qed.

(** [k] windows that go through, then the pass at window [k]. *)
Lemma window_loop_reaches (c : nat) learners (k : nat) w fuel :
  (1 <= c)%nat ->
  (forall i, (i < k)%nat -> goes_through server self (window c learners i)) ->
  (k * c < length learners)%nat ->
  exists w1 evs,
    delete_learners server (k + S fuel) self learners (Z.of_nat c) 0 w =
      match window_pass server self learners (Z.of_nat c) (Z.of_nat (k * c)) w1 with
      | (Returned Continue, w2) =>
          window_loop server fuel self learners (Z.of_nat c) (Z.of_nat (k * c) + Z.of_nat c) w2
      | (Returned (Return v), w2) => (Finished (Returned v), w2)
      | (Raised e, w2) => (Finished (Raised e), w2)
      end /\
    http_log w1 = http_log w ++ (window_request self <$> (window c learners <$> seq 0 k)) /\
    log w1 = log w ++ evs.
Proof.
  intros Hc Hgood Hk.
  destruct (window_loop_prefix server self c learners k Hc 0 (S fuel) w)
    as (w1 & evs & Hrun & Hhttp & Hlog & _).
  { intros i Hi. split; [nia |]. rewrite Nat.add_0_l. by apply Hgood. }
  exists w1, evs. split; [| split; [| done]].
  - unfold delete_learners. change 0 with (Z.of_nat 0). rewrite Hrun. rewrite Nat.add_0_l.
    cbn [window_loop]. by replace (_ <? _) with true by (symmetry; apply Z.ltb_lt; lia).
  - rewrite Hhttp, <- list_fmap_compose. f_equal.
Qed.

(** X9: an HTTP error that is not retried (a 4xx other than 429) at
    window [k] ends the run after the first [k] windows were submitted:
    the requests sent are those [k] and the failing one, once, and the
    [Exception] raised names the window's start index [k * c] and its last
    index, from which a later run can start again. *)
Theorem http_error_stops_the_run_after_earlier_windows (c : nat) learners (k : nat) w fuel resp :
  (1 <= c)%nat ->
  (forall i, (i < k)%nat -> goes_through server self (window c learners i)) ->
  (k * c < length learners)%nat ->
  Forall well_formed (window c learners k) ->
  (length (window c learners k ≫= learner_values) < 5000)%nat ->
  (forall h, server h (window_request self (window c learners k)) = Reply resp) ->
  400 <= status_code resp < 500 ->
  status_code resp <> 429 ->
  exists w',
    delete_learners server (k + S fuel) self learners (Z.of_nat c) 0 w =
      (Finished (Raised (Exception
         ("Error was encountered for learners between start/end indices ("
            +:+ str_int (Z.of_nat (k * c)) +:+ ", "
            +:+ str_int (Z.min (Z.of_nat (k * c) + Z.of_nat c - 1) (Z.of_nat (length learners) - 1))
            +:+ ") : "))), w') /\
    http_log w' = http_log w
      ++ (window_request self <$> (window c learners <$> seq 0 k))
      ++ [window_request self (window c learners k)].
Proof.
  intros Hc Hgood Hk Hwf Hlen Hserver Hstatus Hno429.
  destruct (window_loop_reaches c learners k w fuel Hc Hgood Hk) as (w1 & evs & -> & Hhttp & _).
  unfold window in Hwf, Hlen, Hserver.
  destruct (window_pass_open server self c (k * c) learners w1 Hc Hk Hwf)
    as (attempt & _ & ->).
  rewrite check_and_submit_call by done. cbv zeta. unfold _call_segment_post.
  unfold window_request in Hserver.
  rewrite (call_given_up _ (logged attempt w1) resp (Hserver _)); [| lia |].
  - cbn [caught_by_delete_learners]. eexists. split; [done |].
    cbn. rewrite Hhttp, <- app_assoc. done.
  - unfold retryable. lia.
Qed.

(** X10: the required fields are checked window by window, not up front.
    When the first [k] windows go through and window [k] holds a learner
    that lacks a required field, the run raises [KeyError] after having
    sent the requests of the first [k] windows. *)
Theorem missing_field_is_found_after_earlier_windows (c : nat) learners (k : nat) w fuel :
  (1 <= c)%nat ->
  (forall i, (i < k)%nat -> goes_through server self (window c learners i)) ->
  (k * c < length learners)%nat ->
  ~ Forall well_formed (window c learners k) ->
  exists key w',
    key ∈ REQUIRED_IDENTIFYING_KEYS /\
    delete_learners server (k + S fuel) self learners (Z.of_nat c) 0 w =
      (Finished (Raised (KeyError key)), w') /\
    http_log w' = http_log w ++ (window_request self <$> (window c learners <$> seq 0 k)).
Proof.
  intros Hc Hgood Hk Hbad.
  destruct (window_loop_reaches c learners k w fuel Hc Hgood Hk) as (w1 & evs & -> & Hhttp & _).
  destruct (window_pass_missing c (k * c) learners w1 Hc Hk Hbad) as (key & w' & Hkey & -> & Hlog).
  exists key, w'. split; [done |]. split; [done |]. by rewrite Hlog.
Qed.

(** X17: when the first [k] windows go through and window [k] reaches the
    ceiling, the run returns [None] as on success, having submitted the
    first [k] windows and no other; the last record it logs is the ERROR
    record with the number of values. *)
Theorem ceiling_in_a_later_window_keeps_earlier_requests (c : nat) learners (k : nat) w fuel :
  (1 <= c)%nat ->
  (forall i, (i < k)%nat -> goes_through server self (window c learners i)) ->
  (k * c < length learners)%nat ->
  Forall well_formed (window c learners k) ->
  (5000 <= length (window c learners k ≫= learner_values))%nat ->
  exists w' evs,
    delete_learners server (k + S fuel) self learners (Z.of_nat c) 0 w =
      (Finished (Returned PyNone), w') /\
    http_log w' = http_log w ++ (window_request self <$> (window c learners <$> seq 0 k)) /\
    log w' = log w ++ evs
               ++ [TooManyValues (length (window c learners k ≫= learner_values))].
Proof.
  intros Hc Hgood Hk Hwf Hlen.
  destruct (window_loop_reaches c learners k w fuel Hc Hgood Hk) as (w1 & evs & -> & Hhttp & Hlog).
  unfold window in Hwf, Hlen.
  destruct (window_pass_open server self c (k * c) learners w1 Hc Hk Hwf)
    as (attempt & _ & ->).
  rewrite check_and_submit_ceiling by done.
  exists (logged (TooManyValues (length (take c (drop (k * c) learners) ≫= learner_values)))
            (logged attempt w1)), (evs ++ [attempt]).
  split; [done |]. split; [done |]. cbn. rewrite Hlog, <- !app_assoc. done.
Qed.

(** X13: with a chunk size of 2500 or more and at least 2500 well-formed
    learners from the start index on, the first window already has 5000
    values: the run returns at once and submits nothing at all. *)
Theorem chunk_size_from_2500_submits_nothing (c b : nat) learners w fuel :
  (2500 <= c)%nat ->
  (b + 2500 <= length learners)%nat ->
  Forall well_formed (take c (drop b learners)) ->
  exists w',
    delete_learners server (S fuel) self learners (Z.of_nat c) (Z.of_nat b) w =
      (Finished (Returned PyNone), w') /\
    http_log w' = http_log w.
Proof.
  intros Hc Hb Hwf.
  assert (Hflat := flatten_window_records c b learners ltac:(lia) ltac:(lia) Hwf).
  destruct (ceiling_pass server self learners (Z.of_nat c) (Z.of_nat b) _ w fuel Hflat)
    as (id0 & name0 & id1 & name1 & ->).
  - etransitivity; [| apply window_values_length, Hwf].
    rewrite length_take, length_drop. unfold MAXIMUM_USERS_IN_DELETE_REQUEST. lia.
  - by eexists.
Qed.

(** X7: a start index at or past the end of the list, so any start index
    >= 0 on the empty list, makes [delete_learners] return at once with
    nothing sent and nothing logged, whatever the chunk size; a start
    index below minus the length raises [IndexError] at once, also with
    nothing sent or logged. *)
Theorem beginning_idx_out_of_range fuel learners chunk_size beginning_idx w :
  (Z.of_nat (length learners) <= beginning_idx ->
   delete_learners server fuel self learners chunk_size beginning_idx w =
     (Finished (Returned PyNone), w))
  /\
  (beginning_idx < - Z.of_nat (length learners) ->
   delete_learners server (S fuel) self learners chunk_size beginning_idx w =
     (Finished (Raised IndexError), w)).
Proof.
  split.
  - apply window_loop_done.
  - intros Hb. unfold delete_learners. cbn [window_loop].
    replace (_ <? _) with true by (symmetry; apply Z.ltb_lt; lia).
    unfold window_pass, bind, lift, learner_field. by rewrite getitem_below.
Qed.
End Failures.

Section OneWindow.
Context (server : list request -> request -> reply) (self : SegmentApi).

(** The first pass of a run from a window that flattens below the
    ceiling, up to the call. *)
Lemma run_from_flattened fuel learners chunk_size curr_idx vals w :
  1 <= chunk_size ->
  0 <= curr_idx < Z.of_nat (length learners) ->
  flatten_window learners curr_idx (end_of learners chunk_size curr_idx) = Returned vals ->
  exists attempt,
    level_of attempt = INFO /\
    delete_learners server (S fuel) self learners chunk_size curr_idx w =
      match check_and_submit server self curr_idx (end_of learners chunk_size curr_idx) vals
              (logged attempt w) with
      | (Returned Continue, w') =>
          window_loop server fuel self learners chunk_size (curr_idx + chunk_size) w'
      | (Returned (Return v), w') => (Finished (Returned v), w')
      | (Raised e, w') => (Finished (Raised e), w')
      end.
Proof.
  intros Hc Hcurr Hflat.
  pose proof (end_of_bounds learners chunk_size curr_idx Hc Hcurr) as Hend.
  destruct (window_pass_flattened server self _ _ _ _ w Hflat (proj1 Hend))
    as (id0 & name0 & id1 & name1 & Hpass).
  eexists. split; [| unfold delete_learners; cbn [window_loop];
    replace (curr_idx <? Z.of_nat (length learners)) with true
      by (symmetry; apply Z.ltb_lt; lia);
    rewrite Hpass; reflexivity].
  done.
Qed.

(** X1: a response with a non-error status whose body does not decode is
    not retried.  The run sends the window's request once, raises the
    wrapped [Exception] whose message ends with the response's text, and
    logs no retry: the decode layer of [_retry_segment_api] is around the
    HTTP call only, and the decoding happens after it. *)
Theorem undecodable_response_is_not_retried fuel learners chunk_size curr_idx w vals resp :
  let req := post_request self (BULK_DELETE_URL (workspace_slug self))
               (bulk_delete_params vals) in
  1 <= chunk_size ->
  0 <= curr_idx < Z.of_nat (length learners) ->
  flatten_window learners curr_idx (end_of learners chunk_size curr_idx) = Returned vals ->
  (length vals < 5000)%nat ->
  server (http_log w) req = Reply resp ->
  ~ (400 <= status_code resp < 600) ->
  json resp = None ->
  exists w',
    delete_learners server (S fuel) self learners chunk_size curr_idx w =
      (Finished (Raised (Exception
         ("Error was encountered for learners between start/end indices ("
            +:+ str_int curr_idx +:+ ", " +:+ str_int (end_of learners chunk_size curr_idx)
            +:+ ") : " +:+ text resp))), w') /\
    http_log w' = http_log w ++ [req] /\
    count_retries (log w') = count_retries (log w).
Proof.
  intros req Hc Hcurr Hflat Hlen Hreply Hok Hjson. subst req.
  destruct (run_from_flattened fuel _ _ _ _ w Hc Hcurr Hflat) as (attempt & Hinfo & ->).
  rewrite check_and_submit_call by done. cbv zeta. unfold _call_segment_post.
  rewrite (call_replied server _ (logged attempt w) resp Hreply (not_error_status _ Hok)).
  rewrite Hjson. eexists. split; [done |]. split; [done |].
  cbn. rewrite !count_retries_app. destruct attempt; try discriminate; cbn; lia.
Qed.

(** X5: [delete_learners] does not wrap a [Timeout] or a
    [ConnectionError] of the call.  After four timeouts in a row the run
    ends with [Timeout] itself, four requests sent; a connection failure
    ends it with [ConnectionError] itself after one request, without a
    retry. *)
Theorem timeout_and_connection_error_pass_unwrapped fuel learners chunk_size curr_idx w vals :
  let req := post_request self (BULK_DELETE_URL (workspace_slug self))
               (bulk_delete_params vals) in
  1 <= chunk_size ->
  0 <= curr_idx < Z.of_nat (length learners) ->
  flatten_window learners curr_idx (end_of learners chunk_size curr_idx) = Returned vals ->
  (length vals < 5000)%nat ->
  ((forall i, (i < 4)%nat -> server (http_log w ++ repeat req i) req = TimedOut) ->
   exists w',
     delete_learners server (S fuel) self learners chunk_size curr_idx w =
       (Finished (Raised Timeout), w') /\
     http_log w' = http_log w ++ repeat req 4)
  /\
  (server (http_log w) req = ConnectionFailed ->
   exists w',
     delete_learners server (S fuel) self learners chunk_size curr_idx w =
       (Finished (Raised ConnectionError), w') /\
     http_log w' = http_log w ++ [req]).
Proof.
  intros req Hc Hcurr Hflat Hlen. subst req.
  destruct (run_from_flattened fuel _ _ _ _ w Hc Hcurr Hflat) as (attempt & Hinfo & ->).
  rewrite check_and_submit_call by done. cbv zeta. unfold _call_segment_post. split.
  - intros Hscript.
    destruct (call_timed_out server _ (logged attempt w) Hscript) as (w1 & -> & Hlog).
    by exists w1.
  - intros Hdown. rewrite (call_unreachable server _ (logged attempt w) Hdown).
    by eexists.
Qed.

(** X6: [delete_learner] is a run over the one-element list with chunk
    size 1.  It always comes to an end within its single pass; for a
    learner with both required fields whose request is accepted it sends
    exactly that one request and returns [None]; for a learner that lacks
    a required field it raises [KeyError] and sends nothing. *)
Theorem delete_learner_is_one_window (learner : gmap string pyobj) w :
  (exists o w', delete_learner server self learner w = (Finished o, w'))
  /\
  (well_formed learner ->
   accepted (server (http_log w) (window_request self [learner])) ->
   exists w',
     delete_learner server self learner w = (Finished (Returned PyNone), w') /\
     http_log w' = http_log w ++ [window_request self [learner]])
  /\
  (~ well_formed learner ->
   exists key w',
     key ∈ REQUIRED_IDENTIFYING_KEYS /\
     delete_learner server self learner w = (Finished (Raised (KeyError key)), w') /\
     http_log w' = http_log w).
Proof.
  split; [| split].
  - apply (window_loop_finishes server self [learner] 1 ltac:(lia) 1%nat 0 w). cbn. lia.
  - intros Hwf (resp & resp_json & id & Hreply & Hstatus & Hjson & Hid).
    destruct (window_pass_open server self 1 0 [learner] w) as (attempt & _ & Hpass).
    { lia. } { cbn. lia. } { cbn. constructor; [done | constructor]. }
    unfold delete_learner, delete_learners. cbn [window_loop].
    change (0 <? Z.of_nat (length [learner])) with true. cbv iota.
    change 1 with (Z.of_nat 1) at 1. change 0 with (Z.of_nat 0) at 1. rewrite Hpass.
    change (take 1 (drop 0 [learner])) with [learner].
    rewrite check_and_submit_call.
    2:{ pose proof (window_values_length_le [learner]) as Hle.
        cbn [length] in Hle. unfold MAXIMUM_USERS_IN_DELETE_REQUEST. lia. }
    cbv zeta. unfold _call_segment_post. unfold window_request in Hreply.
    rewrite (call_replied server _ (logged attempt w) resp Hreply (not_error_status _ Hstatus)).
    rewrite Hjson, Hid. cbn. eexists. split; [done |]. done.
  - intros Hbad.
    destruct (window_pass_missing server self 1 0 [learner] w) as (key & w' & Hkey & Hpass & Hlog).
    { lia. } { cbn. lia. }
    { intros Hall. apply Hbad. by apply Forall_cons in Hall as [? _]. }
    exists key, w'. split; [done |]. split; [| done].
    unfold delete_learner, delete_learners. cbn [window_loop].
    change (0 <? Z.of_nat (length [learner])) with true. cbv iota.
    change 1 with (Z.of_nat 1) at 1. change 0 with (Z.of_nat 0) at 1. by rewrite Hpass.
Qed.

(** Whatever a run of the loop sends is the request of some window. *)
Lemma window_loop_request_shape fuel learners chunk_size :
  forall curr_idx w, exists new,
    http_log (snd (window_loop server fuel self learners chunk_size curr_idx w)) =
      http_log w ++ new /\
    Forall (fun req => exists vals,
              req = post_request self (BULK_DELETE_URL (workspace_slug self))
                      (bulk_delete_params vals)) new.
Proof.
  induction fuel as [| fuel IH]; intros curr_idx w.
  - exists []. rewrite app_nil_r. split; [| constructor].
    cbn. by destruct (_ <? _).
  - cbn [window_loop]. destruct (_ <? _).
    + destruct (window_pass_sends server self learners chunk_size curr_idx w)
        as (vals & n & Hlog & _).
      assert (Hshape : Forall (fun req => exists vals,
                          req = post_request self (BULK_DELETE_URL (workspace_slug self))
                                  (bulk_delete_params vals))
                (repeat (post_request self (BULK_DELETE_URL (workspace_slug self))
                           (bulk_delete_params vals)) n)).
      { apply Forall_forall. intros req Hreq.
        apply list_elem_of_In, repeat_spec in Hreq as ->. by exists vals. }
      destruct (window_pass _ _ _ _ _ w) as [[[| v] | e] w1]; cbn [snd] in Hlog.
      * destruct (IH (curr_idx + chunk_size) w1) as (new & Hnew & Hall).
        eexists. rewrite Hnew, Hlog, <- app_assoc. split; [done |].
        by apply Forall_app.
      * by eexists.
      * by eexists.
    + exists []. rewrite app_nil_r. split; [done | constructor].
Qed.

(** X11: whatever the inputs and the server, every request that
    [delete_learners] sends is a POST to the regulations URL of the
    workspace, with the bearer token and the JSON content type, whose body
    is a Suppress_With_Delete regulation on the attribute userId with a
    list of strings as values. *)
Theorem delete_learners_only_posts_deletion_requests fuel learners chunk_size beginning_idx w :
  exists new,
    http_log (snd (delete_learners server fuel self learners chunk_size beginning_idx w)) =
      http_log w ++ new /\
    Forall (fun req =>
              req_method req = POST /\
              req_url req = base_url self +:+ "v1beta/workspaces/" +:+ workspace_slug self
                              +:+ "/regulations" /\
              req_headers req = [("Authorization", "Bearer " +:+ auth_token self);
                                 ("Content-Type", "application/json")] /\
              exists vals : list string,
                req_json req =
                  Some (PyDict [("regulation_type", PyStr "Suppress_With_Delete");
                                ("attributes", PyDict [("name", PyStr "userId");
                                                       ("values", PyList (PyStr <$> vals))])]))
           new.
Proof.
  destruct (window_loop_request_shape fuel learners chunk_size beginning_idx w)
    as (new & Hlog & Hshape).
  exists new. split; [exact Hlog |].
  eapply Forall_impl; [exact Hshape |].
  intros req (vals & ->). repeat split. by exists vals.
Qed.

(** X14: when the status response has a non-error status and a body that
    does not decode, [get_bulk_delete_status] raises [JSONDecodeError] to
    the caller after that one request, without a retry and without
    logging anything. *)
Theorem status_decode_failure_is_raised_at_once bulk_delete_id w resp :
  let req := get_request self (BULK_DELETE_STATUS_URL (workspace_slug self) bulk_delete_id) in
  server (http_log w) req = Reply resp ->
  ~ (400 <= status_code resp < 600) ->
  json resp = None ->
  get_bulk_delete_status server self bulk_delete_id w = (Raised JSONDecodeError, sent req w).
Proof.
  intros req Hreply Hok Hjson. subst req.
  unfold get_bulk_delete_status, bind, _call_segment_get.
  rewrite (call_replied server _ w resp Hreply (not_error_status _ Hok)).
  unfold lift. by rewrite Hjson.
Qed.

(** X15: whatever the server does, [get_bulk_delete_status] sends between
    1 and 16 requests, each the GET of the status URL of the workspace and
    the request id with the bearer token, and nothing else; and it either
    returns [None] or raises. *)
Theorem status_call_only_gets_the_status bulk_delete_id w :
  let req := mk_request GET
               (base_url self +:+ "v1beta/workspaces/" +:+ workspace_slug self
                  +:+ "/regulations/" +:+ text_type bulk_delete_id)
               [("Authorization", "Bearer " +:+ auth_token self)] None in
  (exists n, (1 <= n <= 16)%nat /\
     http_log (snd (get_bulk_delete_status server self bulk_delete_id w)) =
       http_log w ++ repeat req n)
  /\ (fst (get_bulk_delete_status server self bulk_delete_id w) = Returned PyNone \/
      exists e, fst (get_bulk_delete_status server self bulk_delete_id w) = Raised e).
Proof.
  intros req. unfold get_bulk_delete_status, bind, _call_segment_get.
  change (get_request self (BULK_DELETE_STATUS_URL (workspace_slug self) bulk_delete_id))
    with req.
  pose proof (call_sends_bounded server req w) as (n & Hn & Hlog).
  destruct (_retry_segment_api (send_checked server req) w) as [[resp | e] w1];
    cbn [snd] in Hlog.
  - unfold lift. destruct (json resp) as [resp_json |]; cbn; eauto 6.
  - eauto 6.
Qed.
End OneWindow.

(** X18: a window of well-formed records flattens to exactly two values
    per record plus one for each record that has [ecommerce_segment_id],
    so to between two and three values per record. *)
Theorem flattened_values_are_counted learners start_idx end_idx :
  0 <= start_idx -> start_idx <= end_idx + 1 -> end_idx < Z.of_nat (length learners) ->
  let records := take (Z.to_nat (end_idx + 1 - start_idx)) (drop (Z.to_nat start_idx) learners) in
  Forall well_formed records ->
  exists vals,
    flatten_window learners start_idx end_idx = Returned vals /\
    length vals = (2 * length records + length (List.filter has_segment_id records))%nat /\
    (2 * length records <= length vals <= 3 * length records)%nat.
Proof.
  intros Hs Hse He records Hwf. eexists. split; [by apply flatten_window_ok |].
  fold records. rewrite (window_values_count records Hwf).
  split; [done |]. pose proof (filter_length has_segment_id records). lia.
Qed.

Section Logging.
Context (server : list request -> request -> reply) (self : SegmentApi).

(** As [http_layer_after_errors], with the records the handler writes. *)
Lemma http_layer_after_errors_log req (j : nat) :
  forall more tries w (resps : nat -> response),
    (j <= more)%nat ->
    (forall i, (i < j)%nat ->
       server (http_log w ++ repeat req i) req = Reply (resps i) /\ retryable (resps i)) ->
    exists w_j,
      http_log w_j = http_log w ++ repeat req j /\
      log w_j = log w ++
        concat ((fun i => [TryingAgain (tries + i); TracebackLogged (HTTPError (resps i));
                           HTTPErrorLogged (status_code (resps i)) (text (resps i))])
                  <$> seq 0 j) /\
      retry_loop is_HTTPError _http_status_giveup (timeout_layer server req) more tries w =
      retry_loop is_HTTPError _http_status_giveup (timeout_layer server req)
        (more - j) (tries + j) w_j.
Proof.
  induction j as [| j IH]; intros more tries w resps Hj Hscript.
  - exists w. cbn. rewrite !app_nil_r, Nat.sub_0_r, Nat.add_0_r. done.
  - destruct more as [| more]; [lia |].
    destruct (Hscript 0%nat) as (Hreply & Hretry); [lia |].
    cbn in Hreply. rewrite app_nil_r in Hreply.
    apply retryable_spec in Hretry as [Herr Hgiveup].
    pose proof (timeout_layer_reply server req w (resps 0%nat) Hreply) as Ht.
    rewrite Herr in Ht.
    rewrite (retry_loop_again _ _ _ _ _ _ _ _ Ht eq_refl Hgiveup).
    set (w1 := snd (_backoff_handler tries (HTTPError (resps 0%nat)) (sent req w))).
    assert (Hw1 : http_log w1 = http_log w ++ [req]) by done.
    assert (Hl1 : log w1 = log w ++ [TryingAgain tries; TracebackLogged (HTTPError (resps 0%nat));
                                     HTTPErrorLogged (status_code (resps 0%nat))
                                       (text (resps 0%nat))]).
    { subst w1. cbn. by rewrite <- !app_assoc. }
    destruct (IH more (S tries) w1 (fun i => resps (S i))) as (w_j & Hlog & Hrec & Heq).
    + lia.
    + intros i Hi. destruct (Hscript (S i)) as (Hreply' & Hretry'); [lia |].
      split; [| done]. rewrite Hw1, <- app_assoc. exact Hreply'.
    + exists w_j. split; [| split].
      * rewrite Hlog, Hw1, <- app_assoc. done.
      * rewrite Hrec, Hl1, <- app_assoc. f_equal.
        cbn [seq fmap list_fmap concat]. rewrite Nat.add_0_r. cbn [app]. do 3 f_equal.
        rewrite <- fmap_S_seq, <- list_fmap_compose. f_equal.
        apply list_fmap_ext. intros _ i _. cbn. do 2 f_equal. lia.
      * rewrite Heq. f_equal. lia.
Qed.

(** X19: every HTTP error that a call retries is logged with its status
    and its text.  After [j] < 4 retried error responses and a response
    that is no error, the call has logged, for each retried response in
    order, the retry record with the number of tries, the traceback record
    and the record with status code and text. *)
Theorem retried_http_errors_are_logged req w (j : nat) (resps : nat -> response) resp :
  (j < 4)%nat ->
  (forall i, (i < j)%nat ->
     server (http_log w ++ repeat req i) req = Reply (resps i) /\
     (status_code (resps i) = 429 \/ 500 <= status_code (resps i) < 600)) ->
  server (http_log w ++ repeat req j) req = Reply resp ->
  ~ (400 <= status_code resp < 600) ->
  exists w',
    _retry_segment_api (send_checked server req) w = (Returned resp, w') /\
    log w' = log w ++
      concat ((fun i => [TryingAgain (S i); TracebackLogged (HTTPError (resps i));
                         HTTPErrorLogged (status_code (resps i)) (text (resps i))])
                <$> seq 0 j).
Proof.
  intros Hj Hscript Hreply Hok.
  rewrite retry_segment_api_http_layer. unfold http_layer, on_exception.
  destruct (http_layer_after_errors_log req j (MAX_TRIES - 1) 1 w resps)
    as (w_j & Hlog & Hrec & ->).
  { unfold MAX_TRIES. lia. }
  { exact Hscript. }
  rewrite <- Hlog in Hreply.
  pose proof (timeout_layer_reply server req w_j resp Hreply) as Ht.
  rewrite (not_error_status _ Hok) in Ht.
  exists (sent req w_j). split; [by apply retry_loop_returned |]. exact Hrec.
Qed.

(** X20: a run from the start whose first [k] windows go through is, after
    those [k] requests, the run from [beginning_idx] = [k * c]. *)
Theorem run_continues_from_a_later_window (c : nat) learners (k : nat) w fuel :
  (1 <= c)%nat ->
  (forall i, (i < k)%nat ->
     (i * c < length learners)%nat /\ goes_through server self (window c learners i)) ->
  exists w',
    delete_learners server (k + fuel) self learners (Z.of_nat c) 0 w =
    delete_learners server fuel self learners (Z.of_nat c) (Z.of_nat (k * c)) w' /\
    http_log w' = http_log w ++ (window_request self <$> (window c learners <$> seq 0 k)).
Proof.
  intros Hc Hgood.
  destruct (window_loop_prefix server self c learners k Hc 0 fuel w)
    as (w' & evs & Hrun & Hhttp & _).
  { intros i Hi. rewrite Nat.add_0_l. by apply Hgood. }
  exists w'. split.
  - unfold delete_learners. change 0 with (Z.of_nat 0). by rewrite Hrun.
  - rewrite Hhttp, <- list_fmap_compose. f_equal.
Qed.
End Logging.

(** * The further properties on sample inputs *)

Lemma sample_customer_well_formed n : well_formed (sample_customer n).
Proof. split; eexists; reflexivity. Qed.

Lemma sample_customers_well_formed n : Forall well_formed (sample_customers n).
Proof.
  unfold sample_customers. apply Forall_fmap, Forall_forall. intros k _.
  apply sample_customer_well_formed.
Qed.

Lemma sample_customers_length n : length (sample_customers n) = Z.to_nat n.
Proof. unfold sample_customers. rewrite length_fmap, py_range_length. f_equal. lia. Qed.

Lemma sample_learners_values_length n :
  length (sample_learners n ≫= learner_values) = (2 * Z.to_nat n)%nat.
Proof.
  rewrite <- sample_learners_length. unfold sample_learners.
  induction (py_range 0 n) as [| z zs IH]; [done |].
  cbn [fmap list_fmap mbind list_bind length]. rewrite length_app, IH.
  change (length (learner_values (sample_learner z))) with 2%nat. lia.
Qed.

Lemma sample_customers_values_length n :
  length (sample_customers n ≫= learner_values) = (3 * Z.to_nat n)%nat.
Proof.
  rewrite <- sample_customers_length. unfold sample_customers.
  induction (py_range 0 n) as [| z zs IH]; [done |].
  cbn [fmap list_fmap mbind list_bind length]. rewrite length_app, IH.
  change (length (learner_values (sample_customer z))) with 3%nat. lia.
Qed.

Lemma accepting_goes_through (records : list (gmap string pyobj)) :
  Forall well_formed records ->
  (length (records ≫= learner_values) < 5000)%nat ->
  goes_through accepting_server sample_api records.
Proof.
  intros Hwf Hlen. split; [done |]. split; [done |]. intros h. apply accepting_server_accepts.
Qed.

Ltac evaluated :=
  first [ solve [cbn; lia]
        | solve [vm_compute; repeat split; first [reflexivity | discriminate | lia]] ].

(** X1 on a 200 whose text is no JSON. *)
Lemma undecodable_response_is_not_retried_witness :
  exists w',
    delete_learners garbled_server 1 sample_api (sample_learners 1) 1 0 fresh_world =
      (Finished (Raised (Exception
         "Error was encountered for learners between start/end indices (0, 0) : <html>Bad Gateway</html>")),
       w') /\
    http_log w' = [sample_request] /\
    count_retries (log w') = 0%nat.
Proof.
  apply (undecodable_response_is_not_retried garbled_server sample_api 0%nat (sample_learners 1)
           1 0 fresh_world (sample_learners 1 ≫= learner_values) garbled_response).
  - lia.
  - evaluated.
  - reflexivity.
  - evaluated.
  - reflexivity.
  - evaluated.
  - reflexivity.
Defined.

(** X2 on two timeouts and an answer, and on a server that never answers. *)
Lemma timed_out_call_is_retried_witness :
  (exists w', _retry_segment_api (send_checked slow_server sample_request) fresh_world =
                (Returned queued_response, w') /\
              http_log w' = repeat sample_request 3)
  /\ (exists w', _retry_segment_api (send_checked silent_server sample_request) fresh_world =
                   (Raised Timeout, w') /\
                 http_log w' = repeat sample_request 4).
Proof.
  split.
  - apply (proj1 (timed_out_call_is_retried slow_server sample_request fresh_world)
             2%nat queued_response).
    + lia.
    + intros i Hi. assert (i = 0%nat \/ i = 1%nat) as [-> | ->] by lia; reflexivity.
    + reflexivity.
    + evaluated.
  - apply (proj2 (timed_out_call_is_retried silent_server sample_request fresh_world)).
    intros i Hi. reflexivity.
Defined.

(** X5 on a server that never answers and on one that cannot be reached. *)
Lemma timeout_and_connection_error_pass_unwrapped_witness :
  (exists w', delete_learners silent_server 1 sample_api (sample_learners 1) 1 0 fresh_world =
                (Finished (Raised Timeout), w') /\
              http_log w' = repeat sample_request 4)
  /\ (exists w', delete_learners unreachable_server 1 sample_api (sample_learners 1) 1 0
                   fresh_world = (Finished (Raised ConnectionError), w') /\
                 http_log w' = [sample_request]).
Proof.
  split.
  - apply (proj1 (timeout_and_connection_error_pass_unwrapped silent_server sample_api 0%nat
                    (sample_learners 1) 1 0 fresh_world (sample_learners 1 ≫= learner_values)
                    ltac:(lia) ltac:(evaluated) eq_refl ltac:(evaluated))).
    intros i Hi. reflexivity.
  - apply (proj2 (timeout_and_connection_error_pass_unwrapped unreachable_server sample_api 0%nat
                    (sample_learners 1) 1 0 fresh_world (sample_learners 1 ≫= learner_values)
                    ltac:(lia) ltac:(evaluated) eq_refl ltac:(evaluated))).
    reflexivity.
Defined.

(** X6 on one learner. *)
Lemma delete_learner_is_one_window_witness :
  exists w',
    delete_learner accepting_server sample_api (sample_learner 7) fresh_world =
      (Finished (Returned PyNone), w') /\
    http_log w' = [window_request sample_api [sample_learner 7]].
Proof.
  apply (proj1 (proj2 (delete_learner_is_one_window accepting_server sample_api
                         (sample_learner 7) fresh_world))).
  - apply sample_learner_well_formed.
  - apply accepting_server_accepts.
Defined.

(** X7 on the empty list. *)
Lemma beginning_idx_out_of_range_witness :
  delete_learners accepting_server 0 sample_api [] 5 0 fresh_world =
    (Finished (Returned PyNone), fresh_world)
  /\ delete_learners accepting_server 1 sample_api [] 5 (-1) fresh_world =
       (Finished (Raised IndexError), fresh_world).
Proof.
  split.
  - apply (proj1 (beginning_idx_out_of_range accepting_server sample_api 0 [] 5 0 fresh_world)).
    evaluated.
  - apply (proj2 (beginning_idx_out_of_range accepting_server sample_api 0 [] 5 (-1) fresh_world)).
    evaluated.
Defined.

(** X8 on 12 learners in chunks of 5, from index 2: two requests. *)
Lemma delete_learners_starts_at_beginning_idx_witness :
  exists w',
    delete_learners accepting_server 2 sample_api (sample_learners 12) 5 2 fresh_world =
      (Finished (Returned PyNone), w') /\
    http_log w' = [window_request sample_api (sample_learner <$> [2; 3; 4; 5; 6]);
                   window_request sample_api (sample_learner <$> [7; 8; 9; 10; 11])].
Proof.
  apply (delete_learners_starts_at_beginning_idx accepting_server sample_api 5 2
           (sample_learners 12) fresh_world 2).
  - lia.
  - apply Forall_drop, sample_learners_well_formed.
  - intros k Hk. assert (Hcases : k = 0%nat \/ k = 1%nat) by (vm_compute in Hk; lia).
    destruct Hcases as [-> | ->]; vm_compute; lia.
  - apply accepting_server_accepts.
  - vm_compute. lia.
Defined.

(** X9 on 12 learners in chunks of 5 and a server that rejects the third,
    short window. *)
Lemma http_error_stops_the_run_after_earlier_windows_witness :
  exists w',
    delete_learners short_window_rejecting_server 3 sample_api (sample_learners 12) 5 0
      fresh_world =
      (Finished (Raised (Exception
         "Error was encountered for learners between start/end indices (10, 11) : ")), w') /\
    http_log w' = window_request sample_api <$> (window 5 (sample_learners 12) <$> [0; 1; 2]%nat).
Proof.
  apply (http_error_stops_the_run_after_earlier_windows short_window_rejecting_server sample_api
           5 (sample_learners 12) 2 fresh_world 0 (unknown_workspace_response 404)).
  - lia.
  - intros i Hi. assert (Hcases : i = 0%nat \/ i = 1%nat) by lia.
    split; [| split].
    + unfold window. apply Forall_take, Forall_drop, sample_learners_well_formed.
    + destruct Hcases as [-> | ->]; vm_compute; lia.
    + intros h. exists queued_response, (PyDict [("regulate_id", PyStr "1a2b")]), (PyStr "1a2b").
      destruct Hcases as [-> | ->]; repeat split; cbn; lia.
  - evaluated.
  - unfold window. apply Forall_take, Forall_drop, sample_learners_well_formed.
  - vm_compute. lia.
  - intros h. reflexivity.
  - cbn. lia.
  - cbn. lia.
Defined.

(** X10 where the sixth learner has no [original_username]: the first
    window is sent, the second raises. *)
Lemma missing_field_is_found_after_earlier_windows_witness :
  exists key w',
    key ∈ REQUIRED_IDENTIFYING_KEYS /\
    delete_learners accepting_server 2 sample_api incomplete_learners 5 0 fresh_world =
      (Finished (Raised (KeyError key)), w') /\
    http_log w' = [window_request sample_api (sample_learners 5)].
Proof.
  apply (missing_field_is_found_after_earlier_windows accepting_server sample_api 5
           incomplete_learners 1 fresh_world 0).
  - lia.
  - intros i Hi. assert (i = 0%nat) as -> by lia. apply accepting_goes_through.
    + apply (sample_learners_well_formed 5).
    + vm_compute. lia.
  - evaluated.
  - intros Hall. change (window 5 incomplete_learners 1)
      with [({["id" := PyInt 5]} : gmap string pyobj); sample_learner 6] in Hall.
    apply Forall_cons in Hall as [[_ [u Hu]] _]. discriminate Hu.
Defined.

(** X12 on 12 learners in chunks of 5. *)
Lemma chunk_size_up_to_1666_stays_below_ceiling_witness :
  exists w',
    delete_learners accepting_server 3 sample_api (sample_learners 12) 5 0 fresh_world =
      (Finished (Returned PyNone), w') /\
    http_log w' = window_request sample_api <$> (window 5 (sample_learners 12) <$> [0; 1; 2]%nat).
Proof.
  apply (proj2 (chunk_size_up_to_1666_stays_below_ceiling accepting_server sample_api)
           5%nat (sample_learners 12) fresh_world 3%nat).
  - lia.
  - apply sample_learners_well_formed.
  - apply accepting_server_accepts.
  - vm_compute. lia.
Defined.

(** X16 on 12 learners in chunks of 5: six records. *)
Lemma accepted_run_logs_two_info_records_per_window_witness :
  exists evs,
    log (snd (delete_learners accepting_server 3 sample_api (sample_learners 12) 5 0 fresh_world))
      = evs /\
    Forall (fun ev => level_of ev = INFO) evs /\ length evs = 6%nat /\ count_retries evs = 0%nat.
Proof.
  apply (accepted_run_logs_two_info_records_per_window accepting_server sample_api 5
           (sample_learners 12) fresh_world 3).
  - lia.
  - apply sample_learners_well_formed.
  - intros k Hk. assert (Hcases : k = 0%nat \/ k = 1%nat \/ k = 2%nat) by (vm_compute in Hk; lia).
    destruct Hcases as [-> | [-> | ->]]; vm_compute; lia.
  - apply accepting_server_accepts.
  - vm_compute. lia.
Defined.

(** X18 on a customer between two learners: seven values. *)
Lemma flattened_values_are_counted_witness :
  exists vals,
    flatten_window [sample_learner 7; sample_customer 8; sample_learner 9] 0 2 = Returned vals /\
    length vals = 7%nat /\ (6 <= length vals <= 9)%nat.
Proof.
  apply (flattened_values_are_counted [sample_learner 7; sample_customer 8; sample_learner 9] 0 2).
  - lia.
  - lia.
  - evaluated.
  - repeat constructor; eexists; reflexivity.
Defined.

(** X14 on a 200 whose text is no JSON. *)
Lemma status_decode_failure_is_raised_at_once_witness :
  get_bulk_delete_status garbled_server sample_api (PyStr "1a2b") fresh_world =
    (Raised JSONDecodeError,
     mk_world [get_request sample_api (BULK_DELETE_STATUS_URL "edx" (PyStr "1a2b"))] []).
Proof.
  apply (status_decode_failure_is_raised_at_once garbled_server sample_api (PyStr "1a2b")
           fresh_world garbled_response).
  - reflexivity.
  - evaluated.
  - reflexivity.
Defined.

(** X19 after a 500 and a 200: three records for the 500. *)
Lemma retried_http_errors_are_logged_witness :
  exists w',
    _retry_segment_api (send_checked recovering_server sample_request) fresh_world =
      (Returned queued_response, w') /\
    log w' = [TryingAgain 1; TracebackLogged (HTTPError (unknown_workspace_response 500));
              HTTPErrorLogged 500 "workspace edx is not known"].
Proof.
  apply (retried_http_errors_are_logged recovering_server sample_request fresh_world 1
           (fun _ => unknown_workspace_response 500) queued_response).
  - lia.
  - intros i Hi. assert (i = 0%nat) as -> by lia. split; [reflexivity | right; cbn; lia].
  - reflexivity.
  - evaluated.
Defined.

(** X20 on 12 learners in chunks of 5: after the first window the run is
    the run from index 5. *)
Lemma run_continues_from_a_later_window_witness :
  exists w',
    delete_learners accepting_server 3 sample_api (sample_learners 12) 5 0 fresh_world =
    delete_learners accepting_server 2 sample_api (sample_learners 12) 5 5 w' /\
    http_log w' = [window_request sample_api (window 5 (sample_learners 12) 0)].
Proof.
  apply (run_continues_from_a_later_window accepting_server sample_api 5 (sample_learners 12)
           1 fresh_world 2).
  - lia.
  - intros i Hi. assert (i = 0%nat) as -> by lia. split; [evaluated |].
    apply accepting_goes_through.
    + unfold window. apply Forall_take, Forall_drop, sample_learners_well_formed.
    + vm_compute. lia.
Defined.

Lemma mixed_learners_length : length mixed_learners = 4000%nat.
Proof.
  unfold mixed_learners. rewrite length_app, sample_learners_length, sample_customers_length.
  reflexivity.
Qed.

Lemma mixed_window_0 : window 2000 mixed_learners 0 = sample_learners 2000.
Proof.
  unfold window, mixed_learners. change (0 * 2000)%nat with 0%nat. rewrite drop_0.
  apply take_app_length'. by rewrite sample_learners_length.
Qed.

Lemma mixed_window_1 : window 2000 mixed_learners 1 = sample_customers 2000.
Proof.
  unfold window, mixed_learners. change (1 * 2000)%nat with 2000%nat.
  rewrite drop_app_length' by (by rewrite sample_learners_length).
  apply take_ge. by rewrite sample_customers_length.
Qed.

(** X13 on 2500 learners in one chunk. *)
Lemma chunk_size_from_2500_submits_nothing_witness :
  exists w',
    delete_learners accepting_server 1 sample_api (sample_learners 2500)
      (Z.of_nat 2500) (Z.of_nat 0) fresh_world = (Finished (Returned PyNone), w') /\
    http_log w' = http_log fresh_world.
Proof.
  pose proof (chunk_size_from_2500_submits_nothing accepting_server sample_api 2500 0
                (sample_learners 2500) fresh_world 0) as H.
  apply H.
  - lia.
  - rewrite sample_learners_length. lia.
  - apply Forall_take, Forall_drop, sample_learners_well_formed.
Defined.

(** X17 on 2000 learners and 2000 customers in chunks of 2000: the first
    window is sent, the second stops at the ceiling. *)
Lemma ceiling_in_a_later_window_keeps_earlier_requests_witness :
  exists w' evs,
    delete_learners accepting_server (1 + 1) sample_api mixed_learners (Z.of_nat 2000) 0
      fresh_world = (Finished (Returned PyNone), w') /\
    http_log w' = http_log fresh_world ++ [window_request sample_api (sample_learners 2000)] /\
    log w' = log fresh_world ++ evs ++ [TooManyValues (3 * Z.to_nat 2000)].
Proof.
  pose proof (ceiling_in_a_later_window_keeps_earlier_requests accepting_server sample_api 2000
                mixed_learners 1 fresh_world 0) as H.
  rewrite mixed_window_1, sample_customers_values_length in H.
  change (window 2000 mixed_learners <$> seq 0 1) with [window 2000 mixed_learners 0] in H.
  rewrite mixed_window_0 in H.
  apply H.
  - lia.
  - intros i Hi. assert (i = 0%nat) as -> by lia. rewrite mixed_window_0.
    apply accepting_goes_through; [apply sample_learners_well_formed |].
    rewrite sample_learners_values_length. lia.
  - rewrite mixed_learners_length. lia.
  - apply sample_customers_well_formed.
  - lia.
Defined.
